(** * HBOS: histogram-based outlier scoring (pyod/models/hbos.py)

    A shallow embedding of [pyod.models.hbos] and the properties of its
    scoring kernel.

    Numbers.  The program computes on IEEE doubles; here every float is
    an exact real number ([R]), so rounding is not modelled and the
    statements are those of the exact-arithmetic reading of the code.
    Comparisons are the decidable order of [R].

    Errors.  A Python exception is a [Raise] in the [result] monad; the
    state built before the exception is dropped with it.

    Arrays.  A 1-d array is a [list R]; a 2-d array is the list of its
    rows.  Indexing out of range raises [IndexError] as the Python text
    does (the numba-compiled kernel does not check bounds; the statements
    below never index out of range on a fitted model). *)

From Stdlib Require Import Reals Lra Lia ZArith.
From stdpp Require Import base decidable option list.

Open Scope R_scope.

(** ** Exceptions and the error monad *)

Inductive exn : Type :=
| ValueError
| IndexError
| AssertionError
| NotFittedError.

Inductive result (A : Type) : Type :=
| Ok (a : A)
| Raise (e : exn).

Arguments Ok {A} a.
Arguments Raise {A} e.

#[global] Instance result_ret : MRet result := λ A a, Ok a.

#[global] Instance result_bind : MBind result :=
  λ A B f m, match m with Ok a => f a | Raise e => Raise e end.

Definition is_ok {A} (r : result A) : Prop :=
  match r with Ok _ => True | Raise _ => False end.

(** [for x in xs: s = body x s] with the loop-carried state [s]. *)
Fixpoint for_in {S : Type} (xs : list nat) (body : nat → S → result S) (s : S)
  : result S :=
  match xs with
  | [] => Ok s
  | x :: xs' => s' ← body x s; for_in xs' body s'
  end.

Definition range (n : nat) : list nat := seq 0 n.

(** ** Decidable comparisons on reals *)

#[global] Instance Rle_decision (x y : R) : Decision (x <= y) := Rle_dec x y.
#[global] Instance Rlt_decision (x y : R) : Decision (x < y) := Rlt_dec x y.
#[global] Instance Req_decision : EqDecision R := Req_dec_T.

(** ** Arrays *)

Abbreviation vec := (list R).
Abbreviation matrix := (list (list R)).

(** [X.shape[0]] and [X.shape[1]].  A matrix with no row has no recorded
    width; the detector only calls the kernel on matrices with at least
    one row (see [check_array]). *)
Definition nrows (M : matrix) : nat := length M.
Definition ncols (M : matrix) : nat :=
  match M with [] => 0%nat | row :: _ => length row end.

(** [a[k]] with Python's negative indices. *)
Definition py_index {A : Type} (l : list A) (k : Z) : result A :=
  let n := Z.of_nat (length l) in
  let k' := if (k <? 0)%Z then (k + n)%Z else k in
  if ((0 <=? k') && (k' <? n))%Z
  then match l !! Z.to_nat k' with Some x => Ok x | None => Raise IndexError end
  else Raise IndexError.

(** [M[r, c]]. *)
Definition mget (M : matrix) (r c : Z) : result R :=
  row ← py_index M r; py_index row c.

(** [M[j, i] = v] for loop indices [j], [i]. *)
Definition mset (M : matrix) (j i : nat) (v : R) : result matrix :=
  match M !! j with
  | Some row =>
      if decide (i < length row)%nat
      then Ok (<[j := <[i := v]> row]> M)
      else Raise IndexError
  | None => Raise IndexError
  end.

(** [M[:, i]]. *)
Fixpoint get_col (M : matrix) (i : nat) : result vec :=
  match M with
  | [] => Ok []
  | row :: M' =>
      match row !! i with
      | Some x => c ← get_col M' i; Ok (x :: c)
      | None => Raise IndexError
      end
  end.

(** [M[:, i] = v]; the shapes must agree (numpy would also broadcast a
    one-element [v], which [fit] never assigns to a column of another
    length). *)
Fixpoint set_col (M : matrix) (i : nat) (v : vec) : result matrix :=
  match M, v with
  | [], [] => Ok []
  | row :: M', x :: v' =>
      if decide (i < length row)%nat
      then M'' ← set_col M' i v'; Ok (<[i := x]> row :: M'')
      else Raise IndexError
  | _, _ => Raise ValueError
  end.

(** [np.zeros([r, c])]: a negative dimension is a [ValueError]. *)
Definition np_zeros (r : Z) (c : nat) : result matrix :=
  if (r <? 0)%Z then Raise ValueError
  else Ok (replicate (Z.to_nat r) (replicate c 0)).

Definition Rsum (l : vec) : R := foldr Rplus 0 l.

(** [np.sum(M, axis=1)]. *)
Definition np_sum_axis1 (M : matrix) : vec := map Rsum M.

(** [np.diff(a)]. *)
Definition np_diff (a : vec) : vec :=
  zip_with (λ hi lo, hi - lo) (tail a) a.

(** Element-wise product of two arrays of one length. *)
Definition vmul (a b : vec) : vec := zip_with Rmult a b.

(** [np.min(a)]; the empty array is a [ValueError]. *)
Definition np_min (a : vec) : result R :=
  match a with
  | [] => Raise ValueError
  | x :: a' => Ok (foldl Rmin x a')
  end.

(** [np.log2].  On a non-positive argument numpy yields -inf or nan; the
    detector only applies it to [density + alpha] with [alpha > 0]. *)
Definition log2 (x : R) : R := ln x / ln 2.

(** [np.isclose(a, b, rtol=1e-05, atol)] on finite numbers. *)
Definition np_isclose (a b atol : R) : bool :=
  bool_decide (Rabs (a - b) <= atol + 1 / 100000 * Rabs b).

Definition py_assert (b : bool) : result unit :=
  if b then Ok tt else Raise AssertionError.

(** ** numpy: histogram and digitize *)

(** [np.linspace(start, stop, num)] with [endpoint=True]. *)
Definition np_linspace (start stop : R) (num : nat) : vec :=
  let div := (num - 1)%nat in
  let step := (stop - start) / INR div in
  map (λ k, if bool_decide (1 < num)%nat && bool_decide (k = div)
            then stop else start + INR k * step)
      (range num).

Fixpoint count_if (p : R → bool) (a : vec) : nat :=
  match a with
  | [] => 0%nat
  | x :: a' => ((if p x then 1 else 0) + count_if p a')%nat
  end.

(** Bin [k] of [nb] is [edges[k] <= x < edges[k+1]]; the last bin also
    holds its right edge. *)
Definition in_bin (edges : vec) (nb k : nat) (x : R) : bool :=
  match edges !! k, edges !! S k with
  | Some lo, Some hi =>
      bool_decide (lo <= x)
      && (if decide (S k = nb) then bool_decide (x <= hi) else bool_decide (x < hi))
  | _, _ => false
  end.

Definition bin_counts (edges : vec) (nb : nat) (a : vec) : list nat :=
  map (λ k, count_if (in_bin edges nb k) a) (range nb).

(** The range of the data; a range of width zero is widened by a half
    on each side, and the empty array has range (0, 1). *)
Definition outer_edges (a : vec) : R * R :=
  match a with
  | [] => (0, 1)
  | x :: a' =>
      let first_edge := foldl Rmin x a' in
      let last_edge := foldl Rmax x a' in
      if decide (first_edge = last_edge)
      then (first_edge - 1 / 2, last_edge + 1 / 2)
      else (first_edge, last_edge)
  end.

(** [np.histogram(a, bins=bins, density=True)] for an integer [bins]:
    equal-width bins over the range of [a], and [n / db / n.sum()]. *)
Definition np_histogram (a : vec) (bins : Z) : result (vec * vec) :=
  if (bins <? 1)%Z then Raise ValueError
  else
    let nb := Z.to_nat bins in
    let '(first_edge, last_edge) := outer_edges a in
    let bin_edges := np_linspace first_edge last_edge (nb + 1) in
    let n := bin_counts bin_edges nb a in
    let db := np_diff bin_edges in
    let total := INR (sum_list n) in
    Ok (zip_with (λ c d, INR c / d / total) n db, bin_edges).

Fixpoint nondecreasing (a : vec) : bool :=
  match a with
  | x :: a' =>
      match a' with
      | y :: _ => bool_decide (x <= y) && nondecreasing a'
      | [] => true
      end
  | [] => true
  end.

Fixpoint nonincreasing (a : vec) : bool :=
  match a with
  | x :: a' =>
      match a' with
      | y :: _ => bool_decide (y <= x) && nonincreasing a'
      | [] => true
      end
  | [] => true
  end.

(** [np.searchsorted(a, x, side='left')] on a sorted [a]: the first
    index whose element is not below [x] (numpy finds it by bisection). *)
Fixpoint searchsorted_left (a : vec) (x : R) : nat :=
  match a with
  | [] => 0%nat
  | b :: a' => if decide (b < x) then S (searchsorted_left a' x) else 0%nat
  end.

(** [np.digitize(xs, bins, right=True)]: [bins[i-1] < x <= bins[i]] for
    increasing bins; bins that are not monotonic are a [ValueError]. *)
Definition np_digitize_right (xs bins : vec) : result (list nat) :=
  if nondecreasing bins then Ok (map (searchsorted_left bins) xs)
  else if nonincreasing bins
  then Ok (map (λ x, (length bins - searchsorted_left (reverse bins) x)%nat) xs)
  else Raise ValueError.

(** ** The scoring kernel *)

(** The body of the loop over samples in [_calculate_outlier_scores]:
    the score of sample value [X[j, i]] whose bin index is [bin_ind]. *)
Definition score_sample (X bin_edges : matrix) (out_score_i : vec)
    (n_bins : Z) (tol : R) (i j bin_ind : nat) : result R :=
  if decide (bin_ind = 0%nat) then
    e0 ← mget bin_edges 0 (Z.of_nat i);
    x ← mget X (Z.of_nat j) (Z.of_nat i);
    let dist := e0 - x in
    e1 ← mget bin_edges 1 (Z.of_nat i);
    let bin_width := e1 - e0 in
    if decide (dist <= bin_width * tol)
    then py_index out_score_i 0
    else np_min out_score_i
  else if decide (Z.of_nat bin_ind = (n_bins + 1)%Z) then
    x ← mget X (Z.of_nat j) (Z.of_nat i);
    eN ← mget bin_edges (-1) (Z.of_nat i);
    let dist := x - eN in
    eP ← mget bin_edges (-2) (Z.of_nat i);
    let bin_width := eN - eP in
    if decide (dist <= bin_width * tol)
    then py_index out_score_i (n_bins - 1)
    else np_min out_score_i
  else py_index out_score_i (Z.of_nat bin_ind - 1).

Definition _calculate_outlier_scores (X bin_edges hist : matrix)
    (n_bins : Z) (alpha tol : R) : result matrix :=
  let n_samples := nrows X in
  let n_features := ncols X in
  outlier_scores ← np_zeros (Z.of_nat n_samples) n_features;
  for_in (range n_features) (λ i outlier_scores,
    xi ← get_col X i;
    ei ← get_col bin_edges i;
    bin_inds ← np_digitize_right xi ei;
    hi ← get_col hist i;
    let out_score_i := map (λ h, log2 (h + alpha)) hi in
    for_in (range n_samples) (λ j outlier_scores,
      match bin_inds !! j with
      | Some bin_ind =>
          s ← score_sample X bin_edges out_score_i n_bins tol i j bin_ind;
          mset outlier_scores j i s
      | None => Raise IndexError
      end) outlier_scores) outlier_scores.

(** ** Helpers of the repository that are not in hbos.py *)

(** Modelled from the spec: [check_parameter] of pyod/utils/utility.py,
    called as [check_parameter(p, 0, 1)]; the spec has the parameter in
    the open interval, anything else is an invalid configuration. *)
Definition check_parameter (param low high : R) : result unit :=
  if decide (low < param ∧ param < high) then Ok tt else Raise ValueError.

(** Modelled from the spec: [invert_order] of pyod/utils/utility.py, the
    single change of orientation at the end of the pipeline: every score
    is negated. *)
Definition invert_order (scores : vec) : vec := map Ropp scores.

(** [sklearn.utils.check_array] on a list of rows: the input must be a
    rectangular 2-d array with at least one sample and one feature
    (every real is finite). *)
Definition check_array (X : matrix) : result matrix :=
  if decide (nrows X = 0%nat) then Raise ValueError
  else if negb (forallb (λ row, bool_decide (length row = ncols X)) X)
  then Raise ValueError
  else if decide (ncols X = 0%nat) then Raise ValueError
  else Ok X.

(** ** The detector class *)

Section Detector.

(** The attributes and methods inherited from [BaseDetector]
    (pyod/models/base.py) are parameters: [B] holds what the base class
    owns ([contamination], [_classes], [threshold_], [labels_], ...),
    and its methods read and write that part only. *)
Context {B : Type}.
Variable BaseDetector_init : R → result B.
Variable _set_n_classes : option (list Z) → B → result B.
Variable _process_decision_scores : vec → B → result B.

Record HBOS : Type := mkHBOS {
  base : B;
  n_bins : Z;
  alpha : R;
  tol : R;
  hist_ : option matrix;
  bin_edges_ : option matrix;
  decision_scores_ : option vec
}.

(** [HBOS.__init__]. *)
Definition __init__ (n_bins : Z) (alpha tol contamination : R) : result HBOS :=
  b ← BaseDetector_init contamination;
  let self := mkHBOS b n_bins alpha tol None None None in
  _ ← check_parameter alpha 0 1;
  _ ← check_parameter tol 0 1;
  Ok self.

(** The body of the loop over features in [fit]; the loop carries the
    two arrays [hist_] and [bin_edges_]. *)
Definition fit_feature (X : matrix) (n_bins : Z) (i : nat)
    (arrays : matrix * matrix) : result (matrix * matrix) :=
  let '(hist, bin_edges) := arrays in
  xi ← get_col X i;
  '(h, e) ← np_histogram xi n_bins;
  hist ← set_col hist i h;
  bin_edges ← set_col bin_edges i e;
  hi ← get_col hist i;
  ei ← get_col bin_edges i;
  _ ← py_assert (np_isclose 1 (Rsum (vmul hi (np_diff ei))) (1 / 10));
  Ok (hist, bin_edges).

(** [HBOS.fit]; returns [self]. *)
Definition fit (X : matrix) (y : option (list Z)) (self : HBOS) : result HBOS :=
  X ← check_array X;
  b ← _set_n_classes y (base self);
  let n_samples := nrows X in
  let n_features := ncols X in
  hist0 ← np_zeros (n_bins self) n_features;
  edges0 ← np_zeros (n_bins self + 1) n_features;
  '(hist, bin_edges) ← for_in (range n_features)
                          (fit_feature X (n_bins self)) (hist0, edges0);
  outlier_scores ← _calculate_outlier_scores X bin_edges hist
                     (n_bins self) (alpha self) (tol self);
  let scores := invert_order (np_sum_axis1 outlier_scores) in
  b ← _process_decision_scores scores b;
  Ok (mkHBOS b (n_bins self) (alpha self) (tol self)
             (Some hist) (Some bin_edges) (Some scores)).

(** [check_is_fitted(self, ['hist_', 'bin_edges_'])]. *)
Definition check_is_fitted (self : HBOS) : result (matrix * matrix) :=
  match hist_ self, bin_edges_ self with
  | Some hist, Some bin_edges => Ok (hist, bin_edges)
  | _, _ => Raise NotFittedError
  end.

(** [HBOS.decision_function]; the object is threaded through the call
    and handed back next to the scores. *)
Definition decision_function (X : matrix) (self : HBOS)
  : result (vec * HBOS) :=
  '(hist, bin_edges) ← check_is_fitted self;
  X ← check_array X;
  outlier_scores ← _calculate_outlier_scores X bin_edges hist
                     (n_bins self) (alpha self) (tol self);
  Ok (invert_order (np_sum_axis1 outlier_scores), self).

(** A fitted model: an object built by the constructor and returned
    by [fit]. *)
Definition fitted (self : HBOS) : Prop :=
  ∃ nb a t c X y self0,
    __init__ nb a t c = Ok self0 ∧ fit X y self0 = Ok self.

(** ** Vocabulary of the statements *)

(** [M] has [n] rows of [m] entries each. *)
Definition shape (M : matrix) (n m : nat) : Prop :=
  length M = n ∧ Forall (λ row, length row = m) M.

(** The entry [M[j, i]] when it exists. *)
Definition entry (M : matrix) (j i : nat) : option R :=
  M !! j ≫= (λ row, row !! i).

(** Column [i] as a total function, for matrices wide enough. *)
Definition column (M : matrix) (i : nat) : vec :=
  map (λ row, default 0 (row !! i)) M.

(** [a[k]] for an index within the array. *)
Definition at_ (a : vec) (k : nat) : R := default 0 (a !! k).

(** The value of [np.min(a)] on a non-empty array. *)
Definition vmin (a : vec) : R :=
  match a with [] => 0 | x :: a' => foldl Rmin x a' end.

(** The per-bin log-densities [np.log2(hist[:, i] + alpha)]. *)
Definition log_density (alpha : R) (h : vec) : vec :=
  map (λ d, log2 (d + alpha)) h.

(** What [score_sample] computes, read on the column [e] of edges and the
    log-densities [ld] of one feature. *)
Definition bin_score (e ld : vec) (tol x : R) : R :=
  let b := searchsorted_left e x in
  let nb := length ld in
  if decide (b = 0%nat) then
    if decide (at_ e 0 - x <= (at_ e 1 - at_ e 0) * tol)
    then at_ ld 0 else vmin ld
  else if decide (b = S nb) then
    if decide (x - at_ e nb <= (at_ e nb - at_ e (nb - 1)) * tol)
    then at_ ld (nb - 1) else vmin ld
  else at_ ld (b - 1).

(** The edges are strictly increasing. *)
Definition increasing (e : vec) : Prop :=
  ∀ j k x y, (j < k)%nat → e !! j = Some x → e !! k = Some y → x < y.

(** Edge [k] of the [nb] equal-width bins over [[start, stop]]. *)
Definition edge (start stop : R) (nb k : nat) : R :=
  start + INR k * ((stop - start) / INR nb).

(** The histograms that belong to the columns of [X]. *)
Definition histograms_of (X : matrix) (nb m : nat) (H E : matrix) : Prop :=
  shape H nb m ∧ shape E (S nb) m
  ∧ ∀ i, (i < m)%nat →
         np_histogram (column X i) (Z.of_nat nb) = Ok (column H i, column E i).

(** What holds of the arrays of a fitted object: [nb] bins, [m]
    features, densities [H] and edges [E]. *)
Record model_wf (self : HBOS) (nb m : nat) (H E : matrix) : Prop := {
  wf_bins : n_bins self = Z.of_nat nb;
  wf_nb : (1 <= nb)%nat;
  wf_m : (1 <= m)%nat;
  wf_hist : hist_ self = Some H;
  wf_edges : bin_edges_ self = Some E;
  wf_shape_H : shape H nb m;
  wf_shape_E : shape E (S nb) m;
  wf_alpha : 0 < alpha self < 1;
  wf_tol : 0 < tol self < 1;
  wf_increasing : ∀ i, (i < m)%nat → increasing (column E i);
  wf_nonneg : ∀ i, (i < m)%nat → Forall (λ d, 0 <= d) (column H i);
  wf_mass : ∀ i, (i < m)%nat →
                 Rsum (vmul (column H i) (np_diff (column E i))) = 1
}.

(** [mn] is the least element of [l]. *)
Definition is_min (mn : R) (l : vec) : Prop :=
  mn ∈ l ∧ ∀ y, y ∈ l → mn <= y.

(** The greatest element of a non-empty array. *)
Definition vmax (a : vec) : R :=
  match a with [] => 0 | x :: a' => foldl Rmax x a' end.

(** The kernel, run on [X] with the arrays and parameters of [self],
    returns a score matrix whose entry [(j, i)] is [s]. *)
Definition sub_score (self : HBOS) (X : matrix) (j i : nat) (s : R) : Prop :=
  ∃ H E S,
    hist_ self = Some H ∧ bin_edges_ self = Some E
    ∧ _calculate_outlier_scores X E H (n_bins self) (alpha self) (tol self)
      = Ok S
    ∧ entry S j i = Some s.

(** The raw sub-scores of one sample [row] on a model with densities
    [H] and edges [E], feature by feature. *)
Definition row_scores (alpha tol : R) (H E : matrix) (row : vec) : vec :=
  imap (λ i v, bin_score (column E i) (log_density alpha (column H i)) tol v)
       row.

(** The one-column matrix that holds column [i] of [M]: a model, or an
    input, cut down to the single feature [i]. *)
Definition single_feature (M : matrix) (i : nat) : matrix :=
  map (λ x, [x]) (column M i).

(** [v] lies strictly inside a bin of greatest density of the feature
    with edges [e] and densities [h]. *)
Definition inside_highest (e h : vec) (v : R) : Prop :=
  ∃ k, (S k < length e)%nat ∧ at_ e k < v < at_ e (S k)
       ∧ ∀ d, d ∈ h → d <= at_ h k.



(** A base class that accepts every contamination and keeps no state
    of its own, to run the detector on concrete data. *)
Definition base0_init (c : R) : result unit := Ok tt.
Definition base0_set_n_classes (y : option (list Z)) (b : unit) : result unit :=
  Ok b.
Definition base0_process (scores : vec) (b : unit) : result unit := Ok b.

(** * Properties *)

(** ** Shapes, rows and columns *)

Lemma shape_ncols M n m : shape M n m → (0 < n)%nat → ncols M = m.
Proof.
  intros [Hn HF] Hpos. destruct M as [|row M]; simpl in *; [lia|].
  by inversion HF.
Qed.

Lemma shape_lookup M n m j row :
  shape M n m → M !! j = Some row → length row = m.
Proof.
  intros [_ HF] Hj. rewrite Forall_lookup in HF. by apply (HF j).
Qed.

Lemma shape_entry M n m j i :
  shape M n m → (j < n)%nat → (i < m)%nat → is_Some (entry M j i).
Proof.
  intros [Hn HF] Hj Hi. unfold entry.
  destruct (lookup_lt_is_Some_2 M j) as [row Hrow]; [lia|].
  rewrite Hrow. simpl. apply lookup_lt_is_Some_2.
  rewrite Forall_lookup in HF. rewrite (HF j row Hrow). done.
Qed.

Lemma length_column M i : length (column M i) = length M.
Proof. unfold column. by rewrite length_map. Qed.

Lemma column_lookup M n m i j :
  shape M n m → (i < m)%nat → column M i !! j = entry M j i.
Proof.
  intros Hs Hi. unfold column, entry. rewrite list_lookup_fmap.
  destruct (M !! j) as [row|] eqn:Hrow; simpl; [|done].
  destruct (lookup_lt_is_Some_2 row i) as [x Hx].
  { by rewrite (shape_lookup _ _ _ _ _ Hs Hrow). }
  by rewrite Hx.
Qed.

Lemma get_col_column M n m i :
  shape M n m → (i < m)%nat → get_col M i = Ok (column M i).
Proof.
  intros [Hn HF] Hi. clear Hn. induction HF as [|row M Hrow HF IH]; [done|].
  simpl. destruct (lookup_lt_is_Some_2 row i) as [x Hx]; [lia|].
  rewrite Hx. rewrite IH. done.
Qed.

Lemma get_col_narrow M n m i :
  shape M n m → (0 < n)%nat → (m <= i)%nat → get_col M i = Raise IndexError.
Proof.
  intros [Hn HF] Hpos Hi. destruct M as [|row M]; simpl in *; [lia|].
  inversion HF; subst. by rewrite lookup_ge_None_2.
Qed.

Lemma py_index_nat {A} (l : list A) (k : nat) x :
  l !! k = Some x → py_index l (Z.of_nat k) = Ok x.
Proof.
  intros Hk. unfold py_index. apply lookup_lt_Some in Hk as Hlt.
  destruct (Z.ltb_spec (Z.of_nat k) 0); [lia|].
  destruct (Z.leb_spec 0 (Z.of_nat k)); [|lia].
  destruct (Z.ltb_spec (Z.of_nat k) (Z.of_nat (length l))); [|lia].
  simpl. by rewrite Nat2Z.id, Hk.
Qed.

Lemma py_index_neg {A} (l : list A) (k : nat) x :
  (0 < k)%nat → (k <= length l)%nat → l !! (length l - k)%nat = Some x →
  py_index l (- Z.of_nat k) = Ok x.
Proof.
  intros Hpos Hle Hk. unfold py_index.
  destruct (Z.ltb_spec (- Z.of_nat k) 0); [|lia].
  destruct (Z.leb_spec 0 (- Z.of_nat k + Z.of_nat (length l))); [|lia].
  destruct (Z.ltb_spec (- Z.of_nat k + Z.of_nat (length l)) (Z.of_nat (length l)));
    [|lia].
  simpl.
  replace (Z.to_nat (- Z.of_nat k + Z.of_nat (length l))) with (length l - k)%nat
    by lia.
  by rewrite Hk.
Qed.

Lemma mget_entry M j i x :
  entry M j i = Some x → mget M (Z.of_nat j) (Z.of_nat i) = Ok x.
Proof.
  unfold entry, mget. destruct (M !! j) as [row|] eqn:Hrow; simpl; [|done].
  intros Hx. rewrite (py_index_nat _ _ _ Hrow). simpl.
  by apply py_index_nat.
Qed.

Lemma mget_neg_entry M k i x :
  (0 < k)%nat → (k <= length M)%nat → entry M (length M - k) i = Some x →
  mget M (- Z.of_nat k) (Z.of_nat i) = Ok x.
Proof.
  unfold entry, mget. intros Hpos Hle.
  destruct (M !! (length M - k)%nat) as [row|] eqn:Hrow; simpl; [|done].
  intros Hx. rewrite (py_index_neg _ _ _ Hpos Hle Hrow). simpl.
  by apply py_index_nat.
Qed.

Lemma mset_ok M n m j i v :
  shape M n m → (j < n)%nat → (i < m)%nat →
  ∃ M', mset M j i v = Ok M' ∧ shape M' n m
        ∧ entry M' j i = Some v
        ∧ ∀ j' i', (j', i') ≠ (j, i) → entry M' j' i' = entry M j' i'.
Proof.
  intros Hs Hj Hi. unfold mset. destruct Hs as [Hn HF].
  destruct (lookup_lt_is_Some_2 M j) as [row Hrow]; [lia|].
  rewrite Hrow.
  assert (length row = m) as Hlen by (by apply (shape_lookup M n m j)).
  rewrite decide_True by lia.
  eexists. split; [done|]. repeat split.
  - by rewrite length_insert.
  - apply Forall_insert; [done|]. by rewrite length_insert.
  - unfold entry. rewrite list_lookup_insert_eq by lia. simpl.
    by rewrite list_lookup_insert_eq by lia.
  - intros j' i' Hne. unfold entry.
    destruct (decide (j' = j)) as [->|Hj'].
    + rewrite list_lookup_insert_eq by lia. rewrite Hrow. simpl.
      rewrite list_lookup_insert_ne; [done|]. congruence.
    + by rewrite list_lookup_insert_ne.
Qed.

Lemma set_col_ok M n m i v :
  shape M n m → (i < m)%nat → length v = n →
  ∃ M', set_col M i v = Ok M' ∧ shape M' n m
        ∧ column M' i = v
        ∧ ∀ k, k ≠ i → column M' k = column M k.
Proof.
  intros [Hn HF] Hi. revert n v Hn.
  induction HF as [|row M Hrow HF IH]; intros n v Hn Hv.
  - destruct v; simpl in *; [|lia]. exists []. subst n. by repeat split.
  - destruct v as [|x v]; simpl in *; [lia|].
    rewrite decide_True by lia.
    destruct (IH (length M) v eq_refl) as (M' & -> & [Hn' HF'] & Hc & Hk); [lia|].
    simpl. eexists. split; [done|]. repeat split.
    + simpl. lia.
    + constructor; [by rewrite length_insert|done].
    + simpl. rewrite list_lookup_insert_eq by lia. simpl. by rewrite Hc.
    + intros k Hne. simpl. rewrite list_lookup_insert_ne by done.
      by rewrite Hk.
Qed.

Lemma np_zeros_shape n m :
  ∃ M, np_zeros (Z.of_nat n) m = Ok M ∧ shape M n m.
Proof.
  unfold np_zeros. destruct (Z.ltb_spec (Z.of_nat n) 0); [lia|].
  eexists. split; [done|]. rewrite Nat2Z.id. split.
  - by rewrite length_replicate.
  - apply Forall_replicate. by rewrite length_replicate.
Qed.

(** ** Loops *)

Lemma for_in_seq_inv {S : Type} (body : nat → S → result S)
    (P : nat → S → Prop) (len start : nat) (s : S) :
  P start s →
  (∀ k s, (start <= k < start + len)%nat → P k s →
          ∃ s', body k s = Ok s' ∧ P (Datatypes.S k) s') →
  ∃ s', for_in (seq start len) body s = Ok s' ∧ P (start + len)%nat s'.
Proof.
  revert start s. induction len as [|len IH]; intros start s HP Hbody.
  - exists s. simpl. by rewrite Nat.add_0_r.
  - simpl. destruct (Hbody start s) as (s1 & -> & HP1); [lia|done|].
    simpl. destruct (IH (Datatypes.S start) s1 HP1) as (s' & Hs' & HP').
    + intros k s2 Hk. apply Hbody. lia.
    + exists s'. split; [done|]. by replace (start + Datatypes.S len)%nat
        with (Datatypes.S start + len)%nat by lia.
Qed.

Lemma for_in_range_inv {S : Type} (body : nat → S → result S)
    (P : nat → S → Prop) (n : nat) (s : S) :
  P 0%nat s →
  (∀ k s, (k < n)%nat → P k s → ∃ s', body k s = Ok s' ∧ P (Datatypes.S k) s') →
  ∃ s', for_in (range n) body s = Ok s' ∧ P n s'.
Proof.
  intros H0 Hbody.
  destruct (for_in_seq_inv body P n 0 s H0) as (s' & Hs' & HP'); [|by exists s'].
  intros k s1 Hk. apply Hbody. lia.
Qed.

(** A loop that returns went through every iteration without raising. *)
Lemma for_in_raise {S : Type} (body : nat → S → result S) xs k (s : S) :
  k ∈ xs → (∀ s, ∃ e, body k s = Raise e) → ∃ e, for_in xs body s = Raise e.
Proof.
  intros Hin Hbody. revert s. induction xs as [|x xs IH]; intros s.
  - by apply elem_of_nil in Hin.
  - simpl. apply elem_of_cons in Hin as [->|Hin].
    + destruct (Hbody s) as [e ->]. by exists e.
    + destruct (body x s) as [s1|e]; simpl; [by apply IH|by exists e].
Qed.

(** ** The score of one value against one feature's histogram *)

Lemma at_lookup a k : (k < length a)%nat → a !! k = Some (at_ a k).
Proof.
  intros Hk. unfold at_. destruct (lookup_lt_is_Some_2 a k Hk) as [x ->]. done.
Qed.

Lemma searchsorted_left_le a x : (searchsorted_left a x <= length a)%nat.
Proof.
  induction a as [|b a IH]; simpl; [lia|]. destruct (decide (b < x)); lia.
Qed.

Lemma np_min_vmin a : a ≠ [] → np_min a = Ok (vmin a).
Proof. by destruct a. Qed.

Lemma score_sample_bin_score X E ld n_bins tol nb m i j x :
  shape E (S nb) m → (i < m)%nat → (1 <= nb)%nat → length ld = nb →
  n_bins = Z.of_nat nb → entry X j i = Some x →
  score_sample X E ld n_bins tol i j (searchsorted_left (column E i) x)
  = Ok (bin_score (column E i) ld tol x).
Proof.
  intros HE Hi Hnb Hld -> Hx.
  pose proof (searchsorted_left_le (column E i) x) as Hb.
  rewrite length_column in Hb. destruct HE as [HlenE HF].
  assert (shape E (S nb) m) as HE by done.
  assert (∀ k, (k < S nb)%nat → entry E k i = Some (at_ (column E i) k)) as Hent.
  { intros k Hk. rewrite <- (column_lookup E (S nb) m) by done.
    apply at_lookup. rewrite length_column. lia. }
  unfold score_sample, bin_score. rewrite Hld.
  set (b := searchsorted_left (column E i) x) in *.
  destruct (decide (b = 0%nat)) as [Hb0|Hb0].
  - pose proof (mget_entry E 0 i _ (Hent 0%nat ltac:(lia))) as H0.
    pose proof (mget_entry E 1 i _ (Hent 1%nat ltac:(lia))) as H1.
    change (Z.of_nat 0) with 0%Z in H0. change (Z.of_nat 1) with 1%Z in H1.
    rewrite H0. simpl. rewrite (mget_entry X j i _ Hx). simpl.
    rewrite H1. simpl.
    destruct (decide _).
    + apply (py_index_nat ld 0). apply at_lookup. lia.
    + apply np_min_vmin. destruct ld; simpl in *; [lia|done].
  - destruct (decide (Z.of_nat b = (Z.of_nat nb + 1)%Z)) as [HbN|HbN].
    + rewrite decide_True by lia.
      rewrite (mget_entry X j i _ Hx). simpl.
      pose proof (mget_neg_entry E 1 i (at_ (column E i) nb)) as H1.
      pose proof (mget_neg_entry E 2 i (at_ (column E i) (nb - 1))) as H2.
      change (- Z.of_nat 1)%Z with (-1)%Z in H1.
      change (- Z.of_nat 2)%Z with (-2)%Z in H2.
      rewrite H1; [|lia|lia|].
      2:{ rewrite HlenE. replace (S nb - 1)%nat with nb by lia.
          apply Hent. lia. }
      simpl. rewrite H2; [|lia|lia|].
      2:{ rewrite HlenE. replace (S nb - 2)%nat with (nb - 1)%nat by lia.
          apply Hent. lia. }
      simpl. destruct (decide _).
      * replace (Z.of_nat nb - 1)%Z with (Z.of_nat (nb - 1)) by lia.
        apply py_index_nat, at_lookup. lia.
      * apply np_min_vmin. destruct ld; simpl in *; [lia|done].
    + rewrite decide_False by lia.
      replace (Z.of_nat b - 1)%Z with (Z.of_nat (b - 1)) by lia.
      apply py_index_nat, at_lookup. lia.
Qed.

(** ** What the kernel returns *)

Lemma kernel_spec X E H n_bins alpha tol n m nb mE mH :
  shape X n m → (0 < n)%nat →
  shape E (S nb) mE → shape H nb mH → (m <= mE)%nat → (m <= mH)%nat →
  (1 <= nb)%nat → n_bins = Z.of_nat nb →
  (∀ i, (i < m)%nat → nondecreasing (column E i) = true) →
  ∃ S, _calculate_outlier_scores X E H n_bins alpha tol = Ok S
       ∧ shape S n m
       ∧ ∀ j i x, entry X j i = Some x →
           entry S j i
           = Some (bin_score (column E i) (log_density alpha (column H i)) tol x).
Proof.
  intros HX Hn HE HH HmE HmH Hnb Hbins Hsorted.
  unfold _calculate_outlier_scores.
  rewrite (shape_ncols X n m HX Hn). unfold nrows.
  destruct HX as [HlenX HFX]. assert (shape X n m) as HX by done.
  rewrite HlenX.
  destruct (np_zeros_shape n m) as (M0 & -> & HM0). simpl.
  pose (val := λ i x, bin_score (column E i) (log_density alpha (column H i)) tol x).
  set (body := λ (i : nat) (outlier_scores : matrix), _).
  destruct (for_in_range_inv body
    (λ i M, shape M n m ∧ ∀ j i' x, (i' < i)%nat → entry X j i' = Some x →
                              entry M j i' = Some (val i' x)) m M0)
    as (S & HS & HshS & HvalS).
  - split; [done|]. intros; lia.
  - intros i M Hi [HshM HvalM]. unfold body.
    rewrite (get_col_column X n m) by done. simpl.
    rewrite (get_col_column E (Datatypes.S nb) mE) by (done || lia). simpl.
    unfold np_digitize_right. rewrite Hsorted by done. simpl.
    rewrite (get_col_column H nb mH) by (done || lia). simpl.
    set (inner := λ (j : nat) (outlier_scores : matrix), _).
    destruct (for_in_range_inv inner
      (λ j M', shape M' n m
               ∧ (∀ j' i', i' ≠ i → entry M' j' i' = entry M j' i')
               ∧ ∀ j' x, (j' < j)%nat → entry X j' i = Some x →
                         entry M' j' i = Some (val i x)) n M)
      as (M' & HM' & HshM' & Hother & Hcol).
    + split; [done|]. split; [done|]. intros; lia.
    + intros j M1 Hj (Hsh1 & Hoth1 & Hcol1). unfold inner.
      destruct (shape_entry X n m j i HX Hj Hi) as [x Hx].
      rewrite list_lookup_fmap. rewrite (column_lookup X n m) by done.
      rewrite Hx. simpl.
      rewrite (score_sample_bin_score X E _ n_bins tol nb mE i j x);
        [|done|lia|done| |done|done].
      2:{ unfold log_density. rewrite length_map, length_column. by destruct HH. }
      simpl.
      destruct (mset_ok M1 n m j i (val i x) Hsh1 Hj Hi)
        as (M2 & HM2 & Hsh2 & Hji & Hrest).
      exists M2. split; [done|]. split; [done|]. split.
      * intros j' i' Hne. rewrite Hrest by congruence. by apply Hoth1.
      * intros j' x' Hj' Hx'. destruct (decide (j' = j)) as [->|Hne].
        -- rewrite Hx in Hx'. by simplify_eq.
        -- rewrite Hrest by congruence. apply Hcol1; [lia|done].
    + exists M'. split; [done|]. split; [done|].
      intros j i' x Hi' Hx. destruct (decide (i' = i)) as [->|Hne].
      * apply Hcol; [|done]. unfold entry in Hx.
        destruct (X !! j) eqn:Hrow; [|done]. apply lookup_lt_Some in Hrow. lia.
      * rewrite Hother by done. apply HvalM; [lia|done].
  - exists S. split; [done|]. split; [done|].
    intros j i x Hx. apply HvalS; [|done]. unfold entry in Hx.
    destruct (X !! j) as [row|] eqn:Hrow; [|done]. simpl in Hx.
    apply lookup_lt_Some in Hx. by rewrite (shape_lookup X n m j row) in Hx.
Qed.

(** An input wider than the array of edges runs out of columns. *)
Lemma kernel_wide_raises X E H n_bins alpha tol n m rE mE :
  shape X n m → (0 < n)%nat → shape E rE mE → (0 < rE)%nat → (mE < m)%nat →
  ∃ e, _calculate_outlier_scores X E H n_bins alpha tol = Raise e.
Proof.
  intros HX Hn HE HrE Hm. unfold _calculate_outlier_scores.
  rewrite (shape_ncols X n m HX Hn). unfold nrows.
  destruct HX as [HlenX HFX]. assert (shape X n m) as HX by done.
  rewrite HlenX. destruct (np_zeros_shape n m) as (M0 & -> & _). simpl.
  apply (for_in_raise _ _ mE).
  - unfold range. apply elem_of_seq. lia.
  - intros M. rewrite (get_col_column X n m) by done. simpl.
    rewrite (get_col_narrow E rE mE) by (done || lia). simpl.
    by exists IndexError.
Qed.

(** ** Sorted edges and the bin index *)

Lemma increasing_tail b e : increasing (b :: e) → increasing e.
Proof. intros Hinc j k x y Hjk Hj Hk. by apply (Hinc (S j) (S k)); [lia|..]. Qed.

Lemma increasing_nondecreasing e : increasing e → nondecreasing e = true.
Proof.
  induction e as [|x e IH]; intros Hinc; [done|].
  destruct e as [|y e]; [done|].
  change (bool_decide (x <= y) && nondecreasing (y :: e) = true).
  rewrite IH by (by eapply increasing_tail).
  rewrite bool_decide_eq_true_2; [done|].
  apply Rlt_le. apply (Hinc 0%nat 1%nat); [lia|done|done].
Qed.

Lemma increasing_at e j k :
  increasing e → (j < k)%nat → (k < length e)%nat → at_ e j < at_ e k.
Proof.
  intros Hinc Hjk Hk. apply (Hinc j k); [done|..]; apply at_lookup; lia.
Qed.

(** The index found by [searchsorted_left]: everything before it is
    below [x], and the element at it (if any) is not. *)
Lemma searchsorted_left_below a x k y :
  (k < searchsorted_left a x)%nat → a !! k = Some y → y < x.
Proof.
  revert k. induction a as [|b a IH]; intros k; simpl; [lia|].
  destruct (decide (b < x)) as [Hb|Hb]; [|lia].
  destruct k as [|k]; simpl; intros Hk Hy; [by simplify_eq|].
  apply (IH k); [lia|done].
Qed.

Lemma searchsorted_left_at a x y :
  a !! searchsorted_left a x = Some y → x <= y.
Proof.
  induction a as [|b a IH]; simpl; [done|].
  destruct (decide (b < x)) as [Hb|Hb]; simpl; [done|].
  intros; simplify_eq. lra.
Qed.

Lemma searchsorted_left_unique a x k :
  increasing a → (k <= length a)%nat →
  (∀ j y, (j < k)%nat → a !! j = Some y → y < x) →
  (∀ y, a !! k = Some y → x <= y) →
  searchsorted_left a x = k.
Proof.
  intros Hinc Hk Hlo Hhi.
  pose proof (searchsorted_left_le a x) as Hle.
  destruct (Nat.lt_trichotomy (searchsorted_left a x) k) as [Hlt|[Heq|Hgt]];
    [|done|].
  - destruct (lookup_lt_is_Some_2 a (searchsorted_left a x)) as [y Hy]; [lia|].
    pose proof (searchsorted_left_at a x y Hy).
    pose proof (Hlo _ y Hlt Hy). lra.
  - destruct (lookup_lt_is_Some_2 a k) as [y Hy]; [lia|].
    pose proof (searchsorted_left_below a x k y Hgt Hy).
    pose proof (Hhi y Hy). lra.
Qed.

Lemma searchsorted_left_first e x :
  x <= at_ e 0 → searchsorted_left e x = 0%nat.
Proof.
  destruct e as [|b e]; simpl; [done|]. unfold at_. simpl. intros Hx.
  rewrite decide_False; [done|lra].
Qed.


(** A value in the half-open bin [(e[k], e[k+1]]] gets index [k+1]. *)
Lemma searchsorted_left_inside e x k :
  increasing e → (S k < length e)%nat → at_ e k < x → x <= at_ e (S k) →
  searchsorted_left e x = S k.
Proof.
  intros Hinc Hk Hlo Hhi. apply searchsorted_left_unique; [done|lia|..].
  - intros j y Hj Hy. destruct (decide (j = k)) as [->|Hne].
    + rewrite at_lookup in Hy by lia. by simplify_eq.
    + apply Rlt_trans with (at_ e k); [|done].
      apply (Hinc j k); [lia|done|]. apply at_lookup. lia.
  - intros y Hy. rewrite at_lookup in Hy by lia. by simplify_eq.
Qed.

(** ** The histogram of one column *)

Lemma foldl_Rmin_le x a : foldl Rmin x a <= x.
Proof.
  revert x. induction a as [|y a IH]; intros x; simpl; [lra|].
  eapply Rle_trans; [apply IH|]. apply Rmin_l.
Qed.

Lemma foldl_Rmax_ge x a : x <= foldl Rmax x a.
Proof.
  revert x. induction a as [|y a IH]; intros x; simpl; [lra|].
  eapply Rle_trans; [|apply IH]. apply Rmax_l.
Qed.

Lemma outer_edges_lt a first_edge last_edge :
  outer_edges a = (first_edge, last_edge) → first_edge < last_edge.
Proof.
  unfold outer_edges. destruct a as [|x a].
  - intros; simplify_eq. lra.
  - pose proof (foldl_Rmin_le x a). pose proof (foldl_Rmax_ge x a).
    destruct (decide _); intros; simplify_eq; lra.
Qed.

Lemma outer_edges_hd a x first_edge last_edge :
  head a = Some x → outer_edges a = (first_edge, last_edge) →
  first_edge <= x <= last_edge.
Proof.
  unfold outer_edges. destruct a as [|x0 a]; simpl; [done|].
  intros ?; simplify_eq.
  pose proof (foldl_Rmin_le x a). pose proof (foldl_Rmax_ge x a).
  destruct (decide _); intros; simplify_eq; lra.
Qed.

Lemma edge_last start stop nb :
  (1 <= nb)%nat → edge start stop nb nb = stop.
Proof.
  intros Hnb. unfold edge. assert (INR nb ≠ 0) by (apply not_0_INR; lia).
  field. done.
Qed.

Lemma np_linspace_lookup start stop nb k :
  (1 <= nb)%nat → (k <= nb)%nat →
  np_linspace start stop (nb + 1) !! k = Some (edge start stop nb k).
Proof.
  intros Hnb Hk. unfold np_linspace, range. rewrite list_lookup_fmap.
  rewrite lookup_seq_lt by lia. simpl.
  replace (nb + 1 - 1)%nat with nb by lia.
  rewrite bool_decide_eq_true_2 by lia. simpl.
  destruct (bool_decide_reflect (k = nb)) as [->|_]; [|done].
  by rewrite edge_last.
Qed.

Lemma length_np_linspace start stop num : length (np_linspace start stop num) = num.
Proof. unfold np_linspace, range. by rewrite length_map, length_seq. Qed.

Lemma edge_lt start stop nb j k :
  start < stop → (1 <= nb)%nat → (j < k)%nat →
  edge start stop nb j < edge start stop nb k.
Proof.
  intros Hlt Hnb Hjk. unfold edge.
  assert (0 < INR nb) by (apply lt_0_INR; lia).
  assert (0 < (stop - start) / INR nb) by (apply Rdiv_lt_0_compat; lra).
  assert (INR j < INR k) by (by apply lt_INR). nra.
Qed.

Lemma np_linspace_increasing start stop nb :
  start < stop → (1 <= nb)%nat → increasing (np_linspace start stop (nb + 1)).
Proof.
  intros Hlt Hnb j k x y Hjk Hj Hk.
  apply lookup_lt_Some in Hk as Hk'. rewrite length_np_linspace in Hk'.
  rewrite np_linspace_lookup in Hj by lia.
  rewrite np_linspace_lookup in Hk by lia. simplify_eq.
  by apply edge_lt.
Qed.

Lemma np_diff_lookup e k d :
  np_diff e !! k = Some d ↔
  ∃ x y, e !! k = Some x ∧ e !! S k = Some y ∧ d = y - x.
Proof.
  unfold np_diff. rewrite lookup_zip_with_Some. rewrite lookup_tail. split.
  - intros (y & x & -> & Hy & Hx). by exists x, y.
  - intros (x & y & Hx & Hy & ->). by exists y, x.
Qed.

Lemma length_np_diff e : length (np_diff e) = (length e - 1)%nat.
Proof.
  unfold np_diff. rewrite length_zip_with, length_tl. lia.
Qed.

Lemma np_diff_pos e : increasing e → Forall (λ d, 0 < d) (np_diff e).
Proof.
  intros Hinc. apply Forall_lookup. intros k d.
  rewrite np_diff_lookup. intros (x & y & Hx & Hy & ->).
  assert (x < y) by (apply (Hinc k (S k)); [lia|done|done]). lra.
Qed.

(** Some bin holds a value of the covered range. *)
Lemma bin_exists (f : nat → R) (nb : nat) (x : R) :
  (1 <= nb)%nat → f 0%nat <= x → x <= f nb →
  ∃ k, (k < nb)%nat ∧ f k <= x
       ∧ if decide (S k = nb) then x <= f (S k) else x < f (S k).
Proof.
  intros Hnb Hlo Hhi.
  assert (∀ n, (n <= nb)%nat → x < f n ∨ (n = nb ∧ x <= f n) →
               ∃ k, (k < n)%nat ∧ f k <= x
                    ∧ if decide (S k = nb) then x <= f (S k) else x < f (S k))
    as Hgen.
  { induction n as [|n IH]; intros Hn Hx.
    - destruct Hx as [Hx|[Heq _]]; [lra|lia].
    - destruct (Rle_lt_dec (f n) x) as [Hfn|Hfn].
      + exists n. split; [lia|]. split; [done|].
        destruct (decide (S n = nb)); destruct Hx as [Hx|[? Hx]]; lra || lia.
      + destruct IH as (k & Hk & Hkx & Hif); [lia|by left|].
        exists k. split; [lia|done]. }
  destruct (Hgen nb) as (k & Hk); [lia|by right|]. by exists k.
Qed.

Lemma count_if_pos p a x : x ∈ a → p x = true → (1 <= count_if p a)%nat.
Proof.
  intros Hin Hp. induction a as [|y a IH]; [by apply elem_of_nil in Hin|].
  simpl. apply elem_of_cons in Hin as [<-|Hin].
  - rewrite Hp. lia.
  - specialize (IH Hin). lia.
Qed.

Lemma sum_list_map_ge (g : nat → nat) l k :
  k ∈ l → (g k <= sum_list (map g l))%nat.
Proof.
  induction l as [|y l IH]; intros Hin; [by apply elem_of_nil in Hin|].
  simpl. apply elem_of_cons in Hin as [<-|Hin]; [lia|].
  specialize (IH Hin). lia.
Qed.

Lemma bin_counts_total start stop nb a x :
  (1 <= nb)%nat → head a = Some x → start <= x <= stop →
  (1 <= sum_list (bin_counts (np_linspace start stop (nb + 1)) nb a))%nat.
Proof.
  intros Hnb Hhd [Hlo Hhi].
  destruct (bin_exists (edge start stop nb) nb x) as (k & Hk & Hkx & Hif);
    [done|unfold edge; simpl; lra|by rewrite edge_last|].
  unfold bin_counts.
  etransitivity; [|apply (sum_list_map_ge _ _ k)].
  - apply (count_if_pos _ a x).
    + destruct a; simpl in *; simplify_eq. apply elem_of_cons. by left.
    + unfold in_bin. rewrite !np_linspace_lookup by lia.
      rewrite bool_decide_eq_true_2 by done. simpl.
      destruct (decide (S k = nb)); by rewrite bool_decide_eq_true_2.
  - unfold range. apply elem_of_seq. lia.
Qed.

Lemma Rsum_density (n : list nat) (db : vec) (total : R) :
  Forall (λ d, 0 < d) db → length n = length db →
  Rsum (vmul (zip_with (λ c d, INR c / d / total) n db) db)
  = INR (sum_list n) / total.
Proof.
  intros Hdb. revert n. induction Hdb as [|d db Hd Hdb IH]; intros n Hlen.
  - destruct n; simpl in *; [|lia]. unfold Rdiv. lra.
  - destruct n as [|c n]; simpl in *; [lia|].
    unfold vmul, Rsum in *. simpl. rewrite IH by lia.
    rewrite plus_INR. unfold Rdiv.
    replace (INR c * / d * / total * d) with (INR c * / total * (/ d * d))
      by ring.
    rewrite Rinv_l by lra. ring.
Qed.

Lemma length_bin_counts e nb a : length (bin_counts e nb a) = nb.
Proof. unfold bin_counts, range. by rewrite length_map, length_seq. Qed.

Lemma density_nonneg (n : list nat) (db : vec) (total : R) :
  Forall (λ d, 0 < d) db → 0 < total →
  Forall (λ d, 0 <= d) (zip_with (λ c d, INR c / d / total) n db).
Proof.
  intros Hdb Htot. apply Forall_lookup. intros k d.
  rewrite lookup_zip_with_Some. intros (c & w & -> & _ & Hw).
  rewrite Forall_lookup in Hdb. specialize (Hdb k w Hw).
  pose proof (pos_INR c).
  apply Rlt_le in Hdb as Hdb', Htot as Htot'.
  apply Rmult_le_pos; [apply Rmult_le_pos; [done|]|];
    apply Rlt_le, Rinv_0_lt_compat; done.
Qed.

(** [np.histogram] on a non-empty column with a positive number of bins. *)
Lemma np_histogram_spec a nb :
  (1 <= nb)%nat → a ≠ [] →
  ∃ h e, np_histogram a (Z.of_nat nb) = Ok (h, e)
         ∧ length h = nb ∧ length e = S nb ∧ increasing e
         ∧ Forall (λ d, 0 <= d) h
         ∧ Rsum (vmul h (np_diff e)) = 1.
Proof.
  intros Hnb Ha. unfold np_histogram.
  destruct (Z.ltb_spec (Z.of_nat nb) 1); [lia|]. rewrite Nat2Z.id.
  destruct (outer_edges a) as [first_edge last_edge] eqn:Hout.
  pose proof (outer_edges_lt a _ _ Hout) as Hlt.
  destruct a as [|x a]; [done|].
  pose proof (outer_edges_hd (x :: a) x _ _ eq_refl Hout) as Hx.
  set (e := np_linspace first_edge last_edge (nb + 1)).
  assert (increasing e) as Hinc by (by apply np_linspace_increasing).
  assert (length e = S nb) as Hlen by (unfold e; rewrite length_np_linspace; lia).
  pose proof (np_diff_pos e Hinc) as Hdb.
  pose proof (bin_counts_total first_edge last_edge nb (x :: a) x Hnb eq_refl Hx)
    as Htot. fold e in Htot.
  assert (0 < INR (sum_list (bin_counts e nb (x :: a)))) as Htot'
    by (apply lt_0_INR; lia).
  eexists _, _. split; [done|]. repeat split.
  - rewrite length_zip_with, length_bin_counts, length_np_diff. lia.
  - done.
  - done.
  - by apply density_nonneg.
  - rewrite Rsum_density; [|done|].
    + field. lra.
    + rewrite length_bin_counts, length_np_diff. lia.
Qed.


Lemma np_histogram_edges a nb h e :
  (1 <= nb)%nat → np_histogram a (Z.of_nat nb) = Ok (h, e) →
  e = np_linspace (outer_edges a).1 (outer_edges a).2 (nb + 1).
Proof.
  intros Hnb. unfold np_histogram.
  destruct (Z.ltb_spec (Z.of_nat nb) 1); [lia|]. rewrite Nat2Z.id.
  destruct (outer_edges a) as [first_edge last_edge].
  intros; by simplify_eq.
Qed.

Lemma np_histogram_bins a bins :
  (bins < 1)%Z → np_histogram a bins = Raise ValueError.
Proof.
  intros Hb. unfold np_histogram. by destruct (Z.ltb_spec bins 1); [|lia].
Qed.

Lemma np_isclose_one : np_isclose 1 1 (1 / 10) = true.
Proof.
  unfold np_isclose. apply bool_decide_eq_true_2.
  replace (1 - 1) with 0 by ring. rewrite Rabs_R0, Rabs_R1. lra.
Qed.

(** ** What [fit] stores *)

Lemma fit_loop_spec X n m nb H0 E0 :
  shape X n m → (0 < n)%nat → (1 <= nb)%nat →
  shape H0 nb m → shape E0 (S nb) m →
  ∃ H E, for_in (range m) (fit_feature X (Z.of_nat nb)) (H0, E0)
         = Ok (H, E)
         ∧ histograms_of X nb m H E.
Proof.
  intros HX Hn Hnb HH0 HE0.
  destruct (for_in_range_inv (fit_feature X (Z.of_nat nb))
    (λ i '(H, E), shape H nb m ∧ shape E (S nb) m
       ∧ ∀ i', (i' < i)%nat →
           np_histogram (column X i') (Z.of_nat nb)
           = Ok (column H i', column E i')) m (H0, E0))
    as ([H E] & Hloop & Hinv).
  - split; [done|]. split; [done|]. intros; lia.
  - intros i [H E] Hi (HH & HE & Hcols). unfold fit_feature.
    rewrite (get_col_column X n m) by done. simpl.
    destruct (np_histogram_spec (column X i) nb Hnb)
      as (h & e & Hhist & Hlh & Hle & Hinc & Hpos & Hmass).
    { intros Hnil. apply (f_equal length) in Hnil.
      rewrite length_column in Hnil. destruct HX as [HlX _].
      simpl in Hnil. lia. }
    rewrite Hhist. simpl.
    destruct (set_col_ok H nb m i h HH Hi Hlh) as (H' & -> & HH' & Hci & Hck).
    simpl.
    destruct (set_col_ok E (S nb) m i e HE Hi Hle) as (E' & -> & HE' & Hei & Hek).
    simpl.
    rewrite (get_col_column H' nb m) by done. simpl.
    rewrite (get_col_column E' (S nb) m) by done. simpl.
    rewrite Hci, Hei, Hmass, np_isclose_one. simpl.
    exists (H', E'). split; [done|]. split; [done|]. split; [done|].
    intros i' Hi'. destruct (decide (i' = i)) as [->|Hne].
    + by rewrite Hci, Hei.
    + rewrite Hck, Hek by done. apply Hcols. lia.
  - exists H, E. split; [done|]. done.
Qed.

Lemma check_array_inv X X' :
  check_array X = Ok X' →
  X' = X ∧ shape X (nrows X) (ncols X) ∧ (0 < nrows X)%nat ∧ (0 < ncols X)%nat.
Proof.
  unfold check_array. destruct (decide (nrows X = 0%nat)); [done|].
  destruct (forallb _ X) eqn:Hrect; simpl; [|done].
  destruct (decide (ncols X = 0%nat)); [done|]. intros; simplify_eq.
  split; [done|]. split; [|lia]. split; [done|].
  apply Forall_forall. intros row Hrow.
  rewrite forallb_forall in Hrect.
  specialize (Hrect row (proj1 (list_elem_of_In _ _) Hrow)).
  by apply bool_decide_eq_true_1 in Hrect.
Qed.

Lemma check_array_shape X n m :
  shape X n m → (0 < n)%nat → (0 < m)%nat → check_array X = Ok X.
Proof.
  intros HX Hn Hm. pose proof (shape_ncols X n m HX Hn) as Hc.
  destruct HX as [HlenX HF]. unfold check_array, nrows.
  rewrite decide_False by lia.
  assert (forallb (λ row, bool_decide (length row = ncols X)) X = true) as ->.
  { apply forallb_forall. intros row Hrow. apply bool_decide_eq_true_2.
    rewrite Hc. rewrite Forall_forall in HF. apply HF.
    by apply list_elem_of_In. }
  simpl. by rewrite decide_False by lia.
Qed.

(** ** Fitted models *)

Lemma init_inv nb a t c self :
  __init__ nb a t c = Ok self →
  n_bins self = nb ∧ alpha self = a ∧ tol self = t
  ∧ 0 < a < 1 ∧ 0 < t < 1
  ∧ hist_ self = None ∧ bin_edges_ self = None.
Proof.
  unfold __init__. destruct (BaseDetector_init c) as [b|]; [|done].
  simpl. unfold check_parameter.
  destruct (decide (0 < a ∧ a < 1)); [|done]. simpl.
  destruct (decide (0 < t ∧ t < 1)); [|done]. simpl.
  intros; simplify_eq. done.
Qed.

Lemma fit_inv X y self0 self :
  fit X y self0 = Ok self →
  ∃ nb H E,
    n_bins self0 = Z.of_nat nb ∧ (1 <= nb)%nat
    ∧ shape X (nrows X) (ncols X) ∧ (0 < nrows X)%nat ∧ (0 < ncols X)%nat
    ∧ histograms_of X nb (ncols X) H E
    ∧ n_bins self = n_bins self0 ∧ alpha self = alpha self0
    ∧ tol self = tol self0
    ∧ hist_ self = Some H ∧ bin_edges_ self = Some E.
Proof.
  unfold fit.
  destruct (check_array X) as [X1|] eqn:Hchk; [|done]. simpl.
  apply check_array_inv in Hchk as (-> & HX & Hn & Hm).
  destruct (_set_n_classes y (base self0)) as [b|]; [|done]. simpl.
  destruct (np_zeros (n_bins self0) (ncols X)) as [hist0|] eqn:Hz0; [|done].
  destruct (np_zeros (n_bins self0 + 1) (ncols X)) as [edges0|] eqn:Hz1;
    [|done].
  simpl.
  destruct (for_in _ _ _) as [[H E]|] eqn:Hloop; [|done]. simpl.
  assert (1 <= n_bins self0)%Z as Hbins.
  { destruct (Z.le_gt_cases 1 (n_bins self0)) as [|Hlt]; [done|]. exfalso.
    destruct (for_in_raise (fit_feature X (n_bins self0)) (range (ncols X))
                0%nat (hist0, edges0)) as [e He].
    - unfold range. apply elem_of_seq. lia.
    - intros [H1 E1]. unfold fit_feature.
      rewrite (get_col_column X (nrows X) (ncols X)) by done. simpl.
      rewrite np_histogram_bins by lia. simpl. by exists ValueError.
    - congruence. }
  set (nb := Z.to_nat (n_bins self0)).
  assert (n_bins self0 = Z.of_nat nb) as Hnb by lia.
  rewrite Hnb in *.
  destruct (np_zeros_shape nb (ncols X)) as (H0 & HH0 & HshH0).
  destruct (np_zeros_shape (S nb) (ncols X)) as (E0 & HE0 & HshE0).
  replace (Z.of_nat (S nb)) with (Z.of_nat nb + 1)%Z in HE0 by lia.
  assert (H0 = hist0) as -> by congruence.
  assert (E0 = edges0) as -> by congruence.
  destruct (fit_loop_spec X (nrows X) (ncols X) nb hist0 edges0)
    as (H' & E' & Hloop' & Hhist); [done|done|lia|done|done|].
  assert (H' = H ∧ E' = E) as [-> ->] by (split; congruence).
  destruct (_calculate_outlier_scores _ _ _ _ _ _); [|done]. simpl.
  destruct (_process_decision_scores _ _); [|done]. simpl.
  intros; simplify_eq. simpl.
  exists nb, H, E. split_and!; try done; lia.
Qed.

Lemma histograms_of_wf X n m nb H E i :
  shape X n m → (0 < n)%nat → (1 <= nb)%nat →
  histograms_of X nb m H E → (i < m)%nat →
  increasing (column E i) ∧ Forall (λ d, 0 <= d) (column H i)
  ∧ Rsum (vmul (column H i) (np_diff (column E i))) = 1.
Proof.
  intros HX Hn Hnb (HH & HE & Hcols) Hi.
  destruct (np_histogram_spec (column X i) nb Hnb)
    as (h & e & Hhist & _ & _ & Hinc & Hpos & Hmass).
  { intros Hnil. apply (f_equal length) in Hnil.
    rewrite length_column in Hnil. destruct HX as [HlX _]. simpl in Hnil. lia. }
  rewrite Hcols in Hhist by done. by simplify_eq.
Qed.

Lemma fit_model_wf nb0 a t c X y self0 self :
  __init__ nb0 a t c = Ok self0 → fit X y self0 = Ok self →
  ∃ nb H E, nb0 = Z.of_nat nb ∧ alpha self = a ∧ tol self = t
            ∧ model_wf self nb (ncols X) H E
            ∧ histograms_of X nb (ncols X) H E.
Proof.
  intros Hinit Hfit.
  apply init_inv in Hinit as (Hnb0 & Ha & Ht & Hra & Hrt & _ & _).
  apply fit_inv in Hfit
    as (nb & H & E & Hbins & Hnb & HX & Hn & Hm & Hhist & Hb & Hal & Htl
        & HH & HE).
  exists nb, H, E.
  pose proof Hhist as (HshH & HshE & _).
  split_and!; try congruence.
  split; try done.
  - congruence.
  - by rewrite Hal, Ha.
  - by rewrite Htl, Ht.
  - intros i Hi.
    by destruct (histograms_of_wf X _ _ nb H E i HX Hn Hnb Hhist Hi) as (?&?&?).
  - intros i Hi.
    by destruct (histograms_of_wf X _ _ nb H E i HX Hn Hnb Hhist Hi) as (?&?&?).
  - intros i Hi.
    by destruct (histograms_of_wf X _ _ nb H E i HX Hn Hnb Hhist Hi) as (?&?&?).
Qed.

Lemma fitted_wf self :
  fitted self → ∃ nb m H E, model_wf self nb m H E.
Proof.
  intros (nb0 & a & t & c & X & y & self0 & Hinit & Hfit).
  destruct (fit_model_wf _ _ _ _ _ _ _ _ Hinit Hfit)
    as (nb & H & E & _ & _ & _ & Hwf & _).
  by exists nb, (ncols X), H, E.
Qed.

Lemma init_ok nb a t c b :
  BaseDetector_init c = Ok b → 0 < a < 1 → 0 < t < 1 →
  __init__ nb a t c = Ok (mkHBOS b nb a t None None None).
Proof.
  intros Hb Ha Ht. unfold __init__, check_parameter. rewrite Hb. simpl.
  rewrite decide_True by done. simpl. by rewrite decide_True by done.
Qed.

Lemma fitted_arrays self H E :
  fitted self → hist_ self = Some H → bin_edges_ self = Some E →
  ∃ nb m, model_wf self nb m H E.
Proof.
  intros Hfit HH HE. destruct (fitted_wf self Hfit) as (nb & m & H' & E' & Hwf).
  pose proof (wf_hist _ _ _ _ _ Hwf). pose proof (wf_edges _ _ _ _ _ Hwf).
  exists nb, m. by replace H with H' by congruence; replace E with E' by congruence.
Qed.

Lemma model_wf_ncols self nb m H E :
  model_wf self nb m H E → ncols H = m ∧ ncols E = m ∧ length H = nb.
Proof.
  intros Hwf. pose proof (wf_nb _ _ _ _ _ Hwf).
  split; [|split].
  - apply (shape_ncols H nb m); [apply Hwf|lia].
  - apply (shape_ncols E (S nb) m); [apply Hwf|lia].
  - by destruct (wf_shape_H _ _ _ _ _ Hwf).
Qed.

(** On a fitted model the kernel returns, for every accepted input that
    is not wider than the model, the matrix of the [bin_score]s. *)
Lemma model_kernel self nb m H E X :
  model_wf self nb m H E → check_array X = Ok X → (ncols X <= m)%nat →
  ∃ S, _calculate_outlier_scores X E H (n_bins self) (alpha self) (tol self)
       = Ok S
       ∧ shape S (nrows X) (ncols X)
       ∧ ∀ j i v, entry X j i = Some v →
           entry S j i
           = Some (bin_score (column E i)
                     (log_density (alpha self) (column H i)) (tol self) v).
Proof.
  intros Hwf Hchk Hm. apply check_array_inv in Hchk as (_ & HX & Hn & _).
  apply (kernel_spec X E H _ _ _ (nrows X) (ncols X) nb m m);
    try done; try apply Hwf.
  intros i Hi. apply increasing_nondecreasing, (wf_increasing _ _ _ _ _ Hwf). lia.
Qed.

Lemma entry_lt X n m j i v :
  shape X n m → entry X j i = Some v → (j < n)%nat ∧ (i < m)%nat.
Proof.
  intros HX Hv. unfold entry in Hv.
  destruct (X !! j) as [row|] eqn:Hrow; [|done]. simpl in Hv.
  apply lookup_lt_Some in Hv. rewrite (shape_lookup X n m j row) in Hv by done.
  apply lookup_lt_Some in Hrow. destruct HX as [<- _]. done.
Qed.

Lemma model_sub_score self nb m H E X j i v :
  model_wf self nb m H E → check_array X = Ok X → (ncols X <= m)%nat →
  entry X j i = Some v →
  sub_score self X j i
    (bin_score (column E i) (log_density (alpha self) (column H i)) (tol self) v).
Proof.
  intros Hwf Hchk Hm Hv.
  destruct (model_kernel self nb m H E X Hwf Hchk Hm) as (S & HS & _ & Hent).
  exists H, E, S. split_and!; [apply Hwf|apply Hwf|done|by apply Hent].
Qed.

Lemma sub_score_unique self X j i s s' :
  sub_score self X j i s → sub_score self X j i s' → s = s'.
Proof.
  intros (H & E & S & HH & HE & HS & Hs) (H' & E' & S' & HH' & HE' & HS' & Hs').
  congruence.
Qed.

(** The columns of a fitted model. *)
Lemma model_wf_column self nb m H E i :
  model_wf self nb m H E → (i < m)%nat →
  length (column E i) = S nb
  ∧ length (log_density (alpha self) (column H i)) = nb
  ∧ increasing (column E i).
Proof.
  intros Hwf Hi. split_and!.
  - rewrite length_column. by destruct (wf_shape_E _ _ _ _ _ Hwf).
  - unfold log_density. rewrite length_map, length_column.
    by destruct (wf_shape_H _ _ _ _ _ Hwf).
  - by apply (wf_increasing _ _ _ _ _ Hwf).
Qed.

(** ** The branches of [bin_score] *)

Section BinScore.

Variables (e ld : vec) (nb : nat) (tol : R).
Hypothesis Hlen_e : length e = S nb.
Hypothesis Hlen_ld : length ld = nb.
Hypothesis Hnb : (1 <= nb)%nat.
Hypothesis Hinc : increasing e.

Lemma bin_score_below_near x :
  x <= at_ e 0 → at_ e 0 - x <= (at_ e 1 - at_ e 0) * tol →
  bin_score e ld tol x = at_ ld 0.
Proof using Hlen_e Hlen_ld Hnb Hinc.
  intros Hx Hd. unfold bin_score. rewrite searchsorted_left_first by done.
  rewrite decide_True by done. by rewrite decide_True.
Qed.




Lemma bin_score_inside x k :
  (k < nb)%nat → at_ e k < x → x <= at_ e (S k) →
  bin_score e ld tol x = at_ ld k.
Proof using Hlen_e Hlen_ld Hnb Hinc.
  intros Hk Hlo Hhi. unfold bin_score.
  rewrite (searchsorted_left_inside e x k) by (done || lia). rewrite Hlen_ld.
  rewrite decide_False by lia. rewrite decide_False by lia.
  by replace (S k - 1)%nat with k by lia.
Qed.

End BinScore.

(** ** The least log-density *)

Lemma foldl_Rmin_spec x a :
  foldl Rmin x a ∈ x :: a ∧ ∀ y, y ∈ x :: a → foldl Rmin x a <= y.
Proof.
  revert x. induction a as [|z a IH]; intros x; simpl.
  - split; [apply elem_of_cons; by left|].
    intros y Hy. apply elem_of_cons in Hy as [->|Hy]; [lra|].
    by apply elem_of_nil in Hy.
  - destruct (IH (Rmin x z)) as [Hin Hle]. split.
    + apply elem_of_cons in Hin as [Hin|Hin].
      * rewrite Hin. unfold Rmin. destruct (Rle_dec x z).
        -- apply elem_of_cons; by left.
        -- apply elem_of_cons; right. apply elem_of_cons; by left.
      * apply elem_of_cons; right. by apply elem_of_cons; right.
    + intros y Hy.
      assert (foldl Rmin (Rmin x z) a <= Rmin x z) as Hm.
      { apply Hle. apply elem_of_cons; by left. }
      apply elem_of_cons in Hy as [->|Hy].
      * eapply Rle_trans; [apply Hm|apply Rmin_l].
      * apply elem_of_cons in Hy as [->|Hy].
        -- eapply Rle_trans; [apply Hm|apply Rmin_r].
        -- apply Hle. by apply elem_of_cons; right.
Qed.

Lemma foldl_Rmax_spec x a :
  ∀ y, y ∈ x :: a → y <= foldl Rmax x a.
Proof.
  revert x. induction a as [|z a IH]; intros x y Hy; simpl.
  - apply elem_of_cons in Hy as [->|Hy]; [lra|]. by apply elem_of_nil in Hy.
  - assert (Rmax x z <= foldl Rmax (Rmax x z) a) as Hm.
    { apply IH. apply elem_of_cons; by left. }
    apply elem_of_cons in Hy as [->|Hy].
    + eapply Rle_trans; [apply Rmax_l|apply Hm].
    + apply elem_of_cons in Hy as [->|Hy].
      * eapply Rle_trans; [apply Rmax_r|apply Hm].
      * apply IH. by apply elem_of_cons; right.
Qed.

Lemma vmin_is_min ld : ld ≠ [] → is_min (vmin ld) ld.
Proof. destruct ld as [|x a]; [done|]. intros _. apply foldl_Rmin_spec. Qed.

Lemma vmax_upper ld y : y ∈ ld → y <= vmax ld.
Proof.
  destruct ld as [|x a]; [intros Hy; by apply elem_of_nil in Hy|].
  apply foldl_Rmax_spec.
Qed.

Lemma at_elem_of a k : (k < length a)%nat → at_ a k ∈ a.
Proof. intros Hk. apply list_elem_of_lookup. exists k. by apply at_lookup. Qed.

Lemma bin_score_elem_of e ld nb tol x :
  length e = S nb → length ld = nb → (1 <= nb)%nat →
  bin_score e ld tol x ∈ ld.
Proof.
  intros Hle Hld Hnb. unfold bin_score.
  pose proof (searchsorted_left_le e x) as Hb. rewrite Hle in Hb.
  assert (ld ≠ []) as Hne by (destruct ld; simpl in *; [lia|done]).
  destruct (vmin_is_min ld Hne) as [Hmin _].
  repeat destruct (decide _); try done; apply at_elem_of; lia.
Qed.

Lemma log_density_at alpha h k :
  (k < length h)%nat → at_ (log_density alpha h) k = log2 (at_ h k + alpha).
Proof.
  intros Hk. unfold at_, log_density. rewrite list_lookup_fmap.
  destruct (lookup_lt_is_Some_2 h k Hk) as [d ->]. done.
Qed.

(** One sample value against one feature of a fitted model. *)
Lemma fitted_sample self H E X j i v :
  fitted self → hist_ self = Some H → bin_edges_ self = Some E →
  check_array X = Ok X → (ncols X <= ncols H)%nat →
  entry X j i = Some v →
  let e := column E i in
  let h := column H i in
  let logDensity := log_density (alpha self) h in
  let nb := length h in
  n_bins self = Z.of_nat nb ∧ (1 <= nb)%nat
  ∧ length e = S nb ∧ length logDensity = nb ∧ increasing e
  ∧ 0 < tol self < 1 ∧ 0 < alpha self < 1
  ∧ Forall (λ d, 0 <= d) h
  ∧ sub_score self X j i (bin_score e logDensity (tol self) v).
Proof.
  intros Hfit HH HE Hchk Hm Hv e h logDensity nb.
  destruct (fitted_arrays self H E Hfit HH HE) as (nb' & m & Hwf).
  destruct (model_wf_ncols _ _ _ _ _ Hwf) as (HcH & _ & HlenH).
  rewrite HcH in Hm.
  pose proof (check_array_inv X X Hchk) as (_ & HX & _ & _).
  destruct (entry_lt X _ _ j i v HX Hv) as [_ Hi].
  destruct (model_wf_column self nb' m H E i Hwf) as (Hle & Hld & Hinc); [lia|].
  assert (nb = nb') as -> by (unfold nb, h; by rewrite length_column).
  split_and!; try done; try apply Hwf.
  - lia.
  - by apply (model_sub_score self nb' m H E X j i v).
Qed.

(** ** Out-of-range samples *)


(** ** Samples at the edges of the training range *)

(** C3.  On a fitted model a sample value equal to the first edge
    [e[0]] of its feature gets the first bin's [log2(h + alpha)], and one
    equal to the last edge [e[n_bins]] gets the last bin's; the kernel
    yields no other sub-score for it. *)
Theorem extremum_sub_score self H E X j i v :
  fitted self → hist_ self = Some H → bin_edges_ self = Some E →
  check_array X = Ok X → (ncols X <= ncols H)%nat →
  entry X j i = Some v →
  let e := column E i in
  let h := column H i in
  let nb := length h in
  n_bins self = Z.of_nat nb
  ∧ (v = at_ e 0 →
     sub_score self X j i (log2 (at_ h 0 + alpha self))
     ∧ ∀ s, sub_score self X j i s → s = log2 (at_ h 0 + alpha self))
  ∧ (v = at_ e nb →
     sub_score self X j i (log2 (at_ h (nb - 1) + alpha self))
     ∧ ∀ s, sub_score self X j i s → s = log2 (at_ h (nb - 1) + alpha self)).
Proof.
  intros Hfit HH HE Hchk Hm Hv e h nb.
  destruct (fitted_sample self H E X j i v Hfit HH HE Hchk Hm Hv)
    as (Hbins & Hnb & Hle & Hld & Hinc & Htol & _ & _ & Hsub).
  fold e h nb in Hbins, Hnb, Hle, Hld, Hinc, Hsub. split; [done|].
  assert (at_ e 0 < at_ e 1) as H01 by (apply increasing_at; [done|lia..]).
  assert (at_ e (nb - 1) < at_ e nb) as HN by (apply increasing_at; [done|lia..]).
  split; intros ->.
  - rewrite (bin_score_below_near e _ nb (tol self) Hle Hld Hnb Hinc) in Hsub
      by nra.
    rewrite log_density_at in Hsub by (fold h nb; lia).
    split; [done|]. intros s Hs. by apply (sub_score_unique self X j i).
  - rewrite (bin_score_inside e _ nb (tol self) Hle Hld Hnb Hinc _ (nb - 1)%nat)
      in Hsub; [|lia|done|replace (S (nb - 1)) with nb by lia; lra].
    rewrite log_density_at in Hsub by (fold h nb; lia).
    split; [done|]. intros s Hs. by apply (sub_score_unique self X j i).
Qed.


(** ** Every sub-score is one of the feature's log-densities *)

(** C10.  On a fitted model, for every input matrix, every sub-score
    that the kernel computes, for sample [j] in feature [i], is
    [log2(hist[k][i] + alpha)] for some bin [k < n_bins], and so lies
    between the least and the greatest log-density of the feature,
    wherever the sample value lies; and the kernel does return on every
    well-formed input that is not wider than the model. *)
Theorem sub_score_in_log_densities self H E X n m :
  fitted self → hist_ self = Some H → bin_edges_ self = Some E →
  shape X n m →
  (check_array X = Ok X → (m <= ncols H)%nat →
   ∃ S, _calculate_outlier_scores X E H (n_bins self) (alpha self) (tol self)
        = Ok S
        ∧ ∀ j i, (j < n)%nat → (i < m)%nat → is_Some (entry S j i))
  ∧ ∀ S j i s,
      _calculate_outlier_scores X E H (n_bins self) (alpha self) (tol self)
      = Ok S →
      entry S j i = Some s →
      let h := column H i in
      let logDensity := log_density (alpha self) h in
      ∃ k, (0 <= Z.of_nat k < n_bins self)%Z
           ∧ h !! k = Some (at_ h k)
           ∧ s = log2 (at_ h k + alpha self)
           ∧ vmin logDensity <= s <= vmax logDensity.
Proof.
  intros Hfit HH HE HX.
  destruct (fitted_arrays self H E Hfit HH HE) as (nb & mM & Hwf).
  destruct (model_wf_ncols _ _ _ _ _ Hwf) as (HcH & _ & _). rewrite HcH.
  pose proof (wf_nb _ _ _ _ _ Hwf) as Hnb.
  assert ((0 < n)%nat → (m <= mM)%nat →
          ∃ S, _calculate_outlier_scores X E H (n_bins self) (alpha self)
                 (tol self) = Ok S
               ∧ shape S n m
               ∧ ∀ j i v, entry X j i = Some v →
                   entry S j i
                   = Some (bin_score (column E i)
                             (log_density (alpha self) (column H i))
                             (tol self) v)) as Hspec.
  { intros Hn Hm.
    apply (kernel_spec X E H _ _ _ n m nb mM mM); try done; try apply Hwf.
    intros i Hi. apply increasing_nondecreasing, (wf_increasing _ _ _ _ _ Hwf).
    lia. }
  split.
  - intros Hchk Hm. apply check_array_inv in Hchk as (_ & HX' & Hn & _).
    assert (n = nrows X) as Hn' by (by destruct HX as [<- _]).
    destruct (Hspec ltac:(lia) Hm) as (S & HS & HshS & _).
    exists S. split; [done|]. intros j i Hj Hi. by apply (shape_entry S n m).
  - intros S j i s HS Hs h logDensity.
    destruct (decide (n = 0%nat)) as [->|Hn].
    { destruct HX as [HlenX _]. destruct X; simpl in HlenX; [|lia].
      unfold _calculate_outlier_scores in HS. simpl in HS.
      simplify_eq; done. }
    destruct (decide (m <= mM)%nat) as [Hm|Hm].
    2:{ destruct (kernel_wide_raises X E H (n_bins self) (alpha self) (tol self)
                    n m (Datatypes.S nb) mM) as [e He];
          [done|lia|apply Hwf|lia|lia|congruence]. }
    destruct (Hspec ltac:(lia) Hm) as (S' & HS' & HshS & Hent).
    assert (S' = S) as -> by congruence.
    destruct (entry_lt S n m j i s HshS Hs) as [Hj Hi].
    destruct (shape_entry X n m j i HX Hj Hi) as [v Hv].
    rewrite (Hent j i v Hv) in Hs. injection Hs as <-.
    destruct (model_wf_column self nb mM H E i Hwf) as (Hle & Hld & Hinc); [lia|].
    fold h logDensity in Hld.
    pose proof (bin_score_elem_of (column E i) logDensity nb (tol self) v
                  Hle Hld Hnb) as Hin.
    set (s := bin_score (column E i) logDensity (tol self) v) in *.
    apply list_elem_of_lookup in Hin as Hk. destruct Hk as [k Hk].
    apply lookup_lt_Some in Hk as Hlt. rewrite Hld in Hlt.
    assert (length h = nb) as Hlh
      by (unfold logDensity, log_density in Hld; by rewrite length_map in Hld).
    exists k. split_and!.
    + lia.
    + rewrite (wf_bins _ _ _ _ _ Hwf). lia.
    + apply at_lookup. lia.
    + rewrite <- log_density_at by lia. fold logDensity.
      rewrite at_lookup in Hk by lia. by simplify_eq.
    + apply vmin_is_min; [|done]. destruct logDensity; simpl in *; [lia|done].
    + by apply vmax_upper.
Qed.

(** ** Scoring twice *)

(** C9.  Scoring is deterministic: a scoring call hands the object back
    unchanged, and a second call on the same matrix yields the same
    score vector. *)
Theorem scoring_deterministic X self s1 self1 s2 self2 :
  decision_function X self = Ok (s1, self1) →
  decision_function X self1 = Ok (s2, self2) →
  s1 = s2 ∧ self1 = self ∧ self2 = self.
Proof.
  intros H1 H2.
  assert (self1 = self) as ->.
  { unfold decision_function in H1.
    destruct (check_is_fitted self) as [[hist edges]|]; [|done]. simpl in H1.
    destruct (check_array X) as [X1|]; [|done]. simpl in H1.
    destruct (_calculate_outlier_scores X1 edges hist _ _ _); [|done].
    simpl in H1. by simplify_eq. }
  rewrite H1 in H2. by simplify_eq.
Qed.

(** ** Running [fit] and [decision_function] *)

Lemma fit_ok X y self0 b :
  check_array X = Ok X → (1 <= n_bins self0)%Z →
  _set_n_classes y (base self0) = Ok b →
  (∀ scores, ∃ b', _process_decision_scores scores b = Ok b') →
  ∃ self, fit X y self0 = Ok self.
Proof.
  intros Hchk Hbins Hset Hproc. unfold fit. rewrite Hchk. simpl.
  apply check_array_inv in Hchk as (_ & HX & Hn & Hm).
  rewrite Hset. simpl.
  set (nb := Z.to_nat (n_bins self0)).
  assert (n_bins self0 = Z.of_nat nb) as Hnb by lia. rewrite Hnb.
  destruct (np_zeros_shape nb (ncols X)) as (H0 & -> & HshH0).
  destruct (np_zeros_shape (S nb) (ncols X)) as (E0 & HE0 & HshE0).
  replace (Z.of_nat (S nb)) with (Z.of_nat nb + 1)%Z in HE0 by lia.
  rewrite HE0. simpl.
  destruct (fit_loop_spec X (nrows X) (ncols X) nb H0 E0)
    as (H & E & -> & Hhist); [done|done|lia|done|done|].
  simpl. pose proof Hhist as (HshH & HshE & _).
  destruct (kernel_spec X E H (Z.of_nat nb) (alpha self0) (tol self0)
              (nrows X) (ncols X) nb (ncols X) (ncols X))
    as (S & -> & _); try done; try lia.
  { intros i Hi. apply increasing_nondecreasing.
    by destruct (histograms_of_wf X _ _ nb H E i HX Hn ltac:(lia) Hhist Hi)
      as (?&?&?). }
  simpl. destruct (Hproc (invert_order (np_sum_axis1 S))) as [b' ->]. simpl.
  by eexists.
Qed.

Lemma kernel_rows self nb m H E X S :
  model_wf self nb m H E → check_array X = Ok X → (ncols X <= m)%nat →
  _calculate_outlier_scores X E H (n_bins self) (alpha self) (tol self) = Ok S →
  S = map (row_scores (alpha self) (tol self) H E) X.
Proof.
  intros Hwf Hchk Hm HS.
  destruct (model_kernel self nb m H E X Hwf Hchk Hm) as (S' & HS' & HshS & Hent).
  assert (S' = S) as -> by congruence.
  apply check_array_inv in Hchk as (_ & HX & _ & _).
  apply list_eq. intros j. rewrite list_lookup_fmap.
  destruct (X !! j) as [row|] eqn:Hrow; simpl.
  - apply lookup_lt_Some in Hrow as Hj.
    destruct (lookup_lt_is_Some_2 S j) as [srow Hsrow].
    { destruct HshS as [-> _]. done. }
    rewrite Hsrow. f_equal. apply list_eq. intros i.
    unfold row_scores. rewrite list_lookup_imap.
    destruct (row !! i) as [v|] eqn:Hv; simpl.
    + specialize (Hent j i v). unfold entry in Hent.
      rewrite Hrow, Hsrow in Hent. simpl in Hent. by apply Hent.
    + apply lookup_ge_None_2. apply lookup_ge_None_1 in Hv.
      rewrite (shape_lookup S _ _ j srow HshS Hsrow).
      by rewrite (shape_lookup X _ _ j row HX Hrow) in Hv.
  - apply lookup_ge_None_2. apply lookup_ge_None_1 in Hrow.
    destruct HshS as [-> _]. done.
Qed.

Lemma decision_function_spec self nb m H E X :
  model_wf self nb m H E → check_array X = Ok X → (ncols X <= m)%nat →
  decision_function X self
  = Ok (map (λ row, - Rsum (row_scores (alpha self) (tol self) H E row)) X,
        self).
Proof.
  intros Hwf Hchk Hm. unfold decision_function, check_is_fitted.
  rewrite (wf_hist _ _ _ _ _ Hwf), (wf_edges _ _ _ _ _ Hwf). simpl.
  rewrite Hchk. simpl.
  destruct (model_kernel self nb m H E X Hwf Hchk Hm) as (S & HS & _).
  rewrite HS. simpl.
  rewrite (kernel_rows self nb m H E X S Hwf Hchk Hm HS).
  unfold invert_order, np_sum_axis1. by rewrite !map_map.
Qed.

(** ** The feature count of a scored matrix *)

(** C6, as the code has it.  A scoring call does not compare the
    feature count of its input with the model's.  On a fitted model every
    well-formed input with at most as many features as the model, fewer
    included, is scored: the call returns one score per sample, the
    inverted sum of the sub-scores of the features present, each taken
    against the model's feature of the same index. *)
Theorem scoring_checks_no_feature_count self H E X :
  fitted self → hist_ self = Some H → bin_edges_ self = Some E →
  check_array X = Ok X → (ncols X <= ncols H)%nat →
  ∃ scores,
    decision_function X self = Ok (scores, self)
    ∧ length scores = nrows X
    ∧ scores
      = map (λ row, - Rsum (row_scores (alpha self) (tol self) H E row)) X.
Proof.
  intros Hfit HH HE Hchk Hm.
  destruct (fitted_arrays self H E Hfit HH HE) as (nb & m & Hwf).
  destruct (model_wf_ncols _ _ _ _ _ Hwf) as (HcH & _ & _).
  rewrite HcH in Hm. eexists. split_and!.
  - by apply (decision_function_spec self nb m).
  - by rewrite length_map.
  - done.
Qed.

(** ** The density check of [fit] *)

Lemma fit_feature_checked X nb i hist edges hist' edges' :
  fit_feature X nb i (hist, edges) = Ok (hist', edges') →
  ∃ hi ei, get_col hist' i = Ok hi ∧ get_col edges' i = Ok ei
           ∧ np_isclose 1 (Rsum (vmul hi (np_diff ei))) (1 / 10) = true.
Proof.
  unfold fit_feature.
  destruct (get_col X i) as [xi|]; [|done]. simpl.
  destruct (np_histogram xi nb) as [[h e]|]; [|done]. simpl.
  destruct (set_col hist i h) as [hist1|]; [|done]. simpl.
  destruct (set_col edges i e) as [edges1|]; [|done]. simpl.
  destruct (get_col hist1 i) as [hi|] eqn:Hhi; [|done]. simpl.
  destruct (get_col edges1 i) as [ei|] eqn:Hei; [|done]. simpl.
  destruct (np_isclose _ _ _) eqn:Hclose; [|done]. simpl.
  intros; simplify_eq. by exists hi, ei.
Qed.

(** C7.  After a successful [fit], for every feature [i] the stored
    densities and edges satisfy [sum_k h[k] * (e[k+1] - e[k])] equal to 1
    within 0.1, and the [np.isclose] test asserted by [fit] holds of the
    stored columns; the test is part of every iteration of the loop that
    builds the histograms: an iteration returns only if the columns it
    has just stored pass it. *)
Theorem density_integrates_to_one X y self0 self :
  fit X y self0 = Ok self →
  (∃ H E,
     hist_ self = Some H ∧ bin_edges_ self = Some E
     ∧ ∀ i, (i < ncols X)%nat →
         let mass := Rsum (vmul (column H i) (np_diff (column E i))) in
         get_col H i = Ok (column H i) ∧ get_col E i = Ok (column E i)
         ∧ py_assert (np_isclose 1 mass (1 / 10)) = Ok tt
         ∧ Rabs (mass - 1) <= 1 / 10)
  ∧ (∀ i hist edges hist' edges',
       fit_feature X (n_bins self0) i (hist, edges) = Ok (hist', edges') →
       ∃ hi ei, get_col hist' i = Ok hi ∧ get_col edges' i = Ok ei
                ∧ np_isclose 1 (Rsum (vmul hi (np_diff ei))) (1 / 10) = true).
Proof.
  intros Hfit. split; [|intros i hist edges hist' edges'; apply fit_feature_checked].
  apply fit_inv in Hfit
    as (nb & H & E & Hbins & Hnb & HX & Hn & Hm & Hhist & _ & _ & _ & HH & HE).
  exists H, E. split; [done|]. split; [done|]. intros i Hi mass.
  destruct (histograms_of_wf X _ _ nb H E i HX Hn Hnb Hhist Hi)
    as (_ & _ & Hmass).
  destruct Hhist as (HshH & HshE & _).
  unfold mass. rewrite Hmass. split_and!.
  - by apply (get_col_column H nb (ncols X)).
  - by apply (get_col_column E (S nb) (ncols X)).
  - by rewrite np_isclose_one.
  - replace (1 - 1) with 0 by ring. rewrite Rabs_R0. lra.
Qed.

(** ** One inversion, after the sum *)

Lemma single_feature_shape M n m i :
  shape M n m → shape (single_feature M i) n 1.
Proof.
  intros [Hn _]. unfold single_feature. split.
  - by rewrite length_map, length_column.
  - apply Forall_forall. intros row Hrow.
    apply list_elem_of_fmap in Hrow as (x & -> & _). done.
Qed.

Lemma single_feature_column M i : column (single_feature M i) 0 = column M i.
Proof.
  unfold single_feature, column. rewrite !map_map. simpl.
  apply map_ext. done.
Qed.

(** The kernel on one sample value and the model of the single feature
    [i]. *)
Lemma single_feature_kernel self nb m H E i v :
  model_wf self nb m H E → (i < m)%nat →
  _calculate_outlier_scores [[v]] (single_feature E i) (single_feature H i)
    (n_bins self) (alpha self) (tol self)
  = Ok [[bin_score (column E i) (log_density (alpha self) (column H i))
           (tol self) v]].
Proof.
  intros Hwf Hi.
  destruct (kernel_spec [[v]] (single_feature E i) (single_feature H i)
              (n_bins self) (alpha self) (tol self) 1 1 nb 1 1)
    as (S & HS & [HlenS HFS] & Hent).
  - split; [done|]. by repeat constructor.
  - lia.
  - apply (single_feature_shape E (Datatypes.S nb) m), Hwf.
  - apply (single_feature_shape H nb m), Hwf.
  - lia.
  - lia.
  - apply Hwf.
  - apply Hwf.
  - intros i' Hi'. replace i' with 0%nat by lia.
    rewrite single_feature_column.
    by apply increasing_nondecreasing, (wf_increasing _ _ _ _ _ Hwf).
  - rewrite HS. f_equal.
    specialize (Hent 0%nat 0%nat v eq_refl).
    rewrite !single_feature_column in Hent.
    destruct S as [|row [|? ?]]; simpl in HlenS; try lia.
    inversion HFS as [|? ? Hrow _]; subst.
    destruct row as [|s [|? ?]]; simpl in Hrow; try lia.
    unfold entry in Hent. simpl in Hent. by simplify_eq.
Qed.

(** C2.  The orientation is inverted once, after the sum over the
    features: for a sample with two features the aggregate score is
    [invert_order] of the sum of the two raw sub-scores, each computed by
    the kernel on its own single feature. *)
Theorem two_feature_additivity self H E v1 v2 :
  fitted self → hist_ self = Some H → bin_edges_ self = Some E →
  ncols H = 2%nat →
  ∃ s1 s2,
    _calculate_outlier_scores [[v1]] (single_feature E 0) (single_feature H 0)
      (n_bins self) (alpha self) (tol self) = Ok [[s1]]
    ∧ _calculate_outlier_scores [[v2]] (single_feature E 1) (single_feature H 1)
        (n_bins self) (alpha self) (tol self) = Ok [[s2]]
    ∧ decision_function [[v1; v2]] self = Ok (invert_order [s1 + s2], self).
Proof.
  intros Hfit HH HE Hc.
  destruct (fitted_arrays self H E Hfit HH HE) as (nb & m & Hwf).
  destruct (model_wf_ncols _ _ _ _ _ Hwf) as (HcH & _ & _).
  assert (m = 2%nat) as -> by congruence.
  eexists _, _. split_and!.
  - by apply (single_feature_kernel self nb 2 H E 0 v1); [|lia].
  - by apply (single_feature_kernel self nb 2 H E 1 v2); [|lia].
  - rewrite (decision_function_spec self nb 2 H E); [|done| |simpl; lia].
    + simpl. do 3 f_equal. unfold Rsum. simpl. ring.
    + apply (check_array_shape _ 1 2); [|lia|lia].
      split; [done|]. by repeat constructor.
Qed.

(** ** Configuration errors *)

(** C5, as the code has it.  The constructor rejects an [alpha] or a
    [tol] outside the open interval (0, 1), before any histogram is
    built; it does not look at [n_bins]: with valid [alpha] and [tol] it
    returns an object for every [n_bins], positive or not. *)
Theorem init_validation nb a t c :
  (¬ (0 < a < 1) ∨ ¬ (0 < t < 1) → ∃ e, __init__ nb a t c = Raise e)
  ∧ (is_ok (BaseDetector_init c) → 0 < a < 1 → 0 < t < 1 →
     ∃ self, __init__ nb a t c = Ok self ∧ n_bins self = nb
             ∧ hist_ self = None ∧ bin_edges_ self = None).
Proof.
  unfold __init__, check_parameter. split.
  - intros Hbad. destruct (BaseDetector_init c) as [b|e]; simpl; [|by exists e].
    destruct (decide (0 < a ∧ a < 1)); simpl; [|by exists ValueError].
    destruct (decide (0 < t ∧ t < 1)); simpl; [|by exists ValueError].
    destruct Hbad; done.
  - intros Hb Ha Ht. destruct (BaseDetector_init c) as [b|e]; [|done]. simpl.
    rewrite decide_True by done. simpl. rewrite decide_True by done. simpl.
    by eexists.
Qed.

(** ** Orientation *)

Lemma log2_increasing x y : 0 < x → x < y → log2 x < log2 y.
Proof.
  intros Hx Hxy. unfold log2.
  assert (0 < ln 2) by (pose proof ln_lt_2; lra).
  apply Rmult_lt_compat_r; [by apply Rinv_0_lt_compat|by apply ln_increasing].
Qed.

Lemma Rsum_le l1 l2 : Forall2 Rle l1 l2 → Rsum l1 <= Rsum l2.
Proof.
  induction 1 as [|x y l1 l2 Hxy _ IH]; unfold Rsum in *; simpl; lra.
Qed.



(** * Further properties of the detector *)

(** ** Using the object before and after [fit] *)

(** X1.  An object that has only been constructed is not fitted: a
    scoring call on it raises [NotFittedError], whatever the input. *)
Theorem scoring_before_fit nb a t c self X :
  __init__ nb a t c = Ok self →
  decision_function X self = Raise NotFittedError.
Proof.
  intros Hinit. apply init_inv in Hinit as (_ & _ & _ & _ & _ & HH & HE).
  unfold decision_function, check_is_fitted. by rewrite HH.
Qed.



(** X3.  The scores that [fit] stores in [decision_scores_] are those
    that [decision_function] returns on the training matrix itself, one
    per training sample. *)
Theorem fit_scores_training_data X y self0 self :
  fit X y self0 = Ok self →
  ∃ scores,
    decision_scores_ self = Some scores
    ∧ length scores = nrows X
    ∧ decision_function X self = Ok (scores, self).
Proof.
  intros Hfit. pose proof Hfit as Hfit'.
  apply fit_inv in Hfit'
    as (nb & H & E & Hbins & Hnb & HX & Hn & Hm & Hhist & Hb & Hal & Htl
        & HH & HE).
  pose proof (check_array_shape X _ _ HX Hn Hm) as Hchk.
  pose proof Hhist as (HshH & HshE & _).
  destruct (kernel_spec X E H (n_bins self0) (alpha self0) (tol self0)
              (nrows X) (ncols X) nb (ncols X) (ncols X))
    as (S & HS & [HlenS _] & _); try done; try lia.
  { intros i Hi. apply increasing_nondecreasing.
    by destruct (histograms_of_wf X _ _ nb H E i HX Hn Hnb Hhist Hi)
      as (?&?&?). }
  unfold fit in Hfit. rewrite Hchk in Hfit. simpl in Hfit.
  destruct (_set_n_classes y (base self0)) as [b|]; [|done]. simpl in Hfit.
  destruct (np_zeros (n_bins self0) (ncols X)) as [hist0|]; [|done].
  destruct (np_zeros (n_bins self0 + 1) (ncols X)) as [edges0|]; [|done].
  simpl in Hfit.
  destruct (for_in _ _ _) as [[H' E']|]; [|done]. simpl in Hfit.
  destruct (_calculate_outlier_scores X E' H' _ _ _) as [S'|] eqn:HS';
    [|done].
  simpl in Hfit.
  destruct (_process_decision_scores _ b) as [b'|]; [|done]. simpl in Hfit.
  injection Hfit as <-. simpl in HH, HE.
  injection HH as ->. injection HE as ->.
  assert (S' = S) as -> by congruence.
  exists (invert_order (np_sum_axis1 S)). split_and!.
  - done.
  - unfold invert_order, np_sum_axis1. by rewrite !length_map.
  - unfold decision_function, check_is_fitted. simpl. rewrite Hchk. simpl.
    by rewrite HS.
Qed.

(** X4.  After [fit], [hist_] has [n_bins] rows and [bin_edges_] has
    [n_bins + 1] rows, each with one column per feature of the training
    matrix; every column of edges is strictly increasing, no density is
    negative, and [n_bins], [alpha] and [tol] are what they were. *)
Theorem fit_stores_histograms X y self0 self :
  fit X y self0 = Ok self →
  ∃ nb H E,
    hist_ self = Some H ∧ bin_edges_ self = Some E
    ∧ n_bins self = Z.of_nat nb ∧ (1 <= nb)%nat
    ∧ shape H nb (ncols X) ∧ shape E (S nb) (ncols X)
    ∧ n_bins self = n_bins self0 ∧ alpha self = alpha self0
    ∧ tol self = tol self0
    ∧ ∀ i, (i < ncols X)%nat →
        increasing (column E i) ∧ Forall (λ d, 0 <= d) (column H i).
Proof.
  intros Hfit.
  apply fit_inv in Hfit
    as (nb & H & E & Hbins & Hnb & HX & Hn & Hm & Hhist & Hb & Hal & Htl
        & HH & HE).
  pose proof Hhist as (HshH & HshE & _).
  exists nb, H, E. split_and!; try done; [congruence|].
  intros i Hi.
  by destruct (histograms_of_wf X _ _ nb H E i HX Hn Hnb Hhist Hi) as (?&?&?).
Qed.

(** ** Samples inside the range *)

Lemma searchsorted_left_pos e x :
  e ≠ [] → at_ e 0 < x → (1 <= searchsorted_left e x)%nat.
Proof.
  destruct e as [|b e]; [done|]. intros _. unfold at_. simpl. intros Hx.
  rewrite decide_True by done. lia.
Qed.

(** A value in [(e[0], e[nb]]] lies in one right-closed bin. *)
Lemma in_range_bin e nb v :
  length e = S nb → at_ e 0 < v → v <= at_ e nb →
  ∃ k, (k < nb)%nat ∧ at_ e k < v ∧ v <= at_ e (S k)
       ∧ searchsorted_left e v = S k.
Proof.
  intros Hlen Hlo Hhi.
  pose proof (searchsorted_left_le e v) as Hle. rewrite Hlen in Hle.
  assert (e ≠ []) as Hne by (destruct e; simpl in *; [lia|done]).
  pose proof (searchsorted_left_pos e v Hne Hlo) as Hpos.
  set (b := searchsorted_left e v) in *.
  assert (b ≠ S nb) as Hb.
  { intros Hb.
    pose proof (searchsorted_left_below e v nb (at_ e nb)) as Hbelow.
    fold b in Hbelow. rewrite Hb in Hbelow.
    specialize (Hbelow ltac:(lia) (at_lookup e nb ltac:(lia))). lra. }
  exists (b - 1)%nat. replace (S (b - 1)) with b by lia. split_and!.
  - lia.
  - apply (searchsorted_left_below e v (b - 1)); [fold b; lia|].
    apply at_lookup. lia.
  - apply (searchsorted_left_at e v). fold b. apply at_lookup. lia.
  - done.
Qed.

(** X5.  On a fitted model a sample value in the right-closed bin
    [(e[k], e[k+1]]] of its feature gets [log2(h[k] + alpha)]; a value
    equal to an inner edge thus takes the density of the bin below that
    edge. *)
Theorem in_range_sub_score self H E X j i v k :
  fitted self → hist_ self = Some H → bin_edges_ self = Some E →
  check_array X = Ok X → (ncols X <= ncols H)%nat →
  entry X j i = Some v →
  (k < length (column H i))%nat →
  at_ (column E i) k < v → v <= at_ (column E i) (S k) →
  sub_score self X j i (log2 (at_ (column H i) k + alpha self)).
Proof.
  intros Hfit HH HE Hchk Hm Hv Hk Hlo Hhi.
  destruct (fitted_sample self H E X j i v Hfit HH HE Hchk Hm Hv)
    as (Hbins & Hnb & Hle & Hld & Hinc & _ & _ & _ & Hsub).
  rewrite (bin_score_inside _ _ _ (tol self) Hle Hld Hnb Hinc v k) in Hsub
    by done.
  by rewrite log_density_at in Hsub.
Qed.

Lemma outer_edges_bounds a x :
  x ∈ a → (outer_edges a).1 <= x <= (outer_edges a).2.
Proof.
  destruct a as [|x0 a]; [intros Hx; by apply elem_of_nil in Hx|].
  intros Hx. unfold outer_edges.
  destruct (foldl_Rmin_spec x0 a) as [_ Hmin].
  pose proof (foldl_Rmax_spec x0 a x Hx) as Hmax.
  specialize (Hmin x Hx).
  destruct (decide _); simpl; lra.
Qed.

(** The edges of a histogram cover the column it is built from. *)
Lemma np_histogram_range a nb h e x :
  (1 <= nb)%nat → np_histogram a (Z.of_nat nb) = Ok (h, e) → x ∈ a →
  at_ e 0 <= x <= at_ e nb.
Proof.
  intros Hnb Hhist Hx. apply np_histogram_edges in Hhist as ->; [|done].
  pose proof (outer_edges_bounds a x Hx) as [Hlo Hhi].
  unfold at_. rewrite !np_linspace_lookup by lia. simpl.
  rewrite edge_last by done. unfold edge. simpl. lra.
Qed.

(** X6.  The training samples never take the out-of-range fallback:
    after [fit], every value of the training matrix lies between the
    first and the last edge of its feature, and its sub-score is the
    log-density of the bin [k] that holds it under the right-closed
    rule, with [e[0]] itself in the first bin. *)
Theorem training_samples_in_range nb0 a t c X y self0 self H E j i v :
  __init__ nb0 a t c = Ok self0 → fit X y self0 = Ok self →
  hist_ self = Some H → bin_edges_ self = Some E →
  entry X j i = Some v →
  let e := column E i in
  let h := column H i in
  let nb := length h in
  at_ e 0 <= v <= at_ e nb
  ∧ ∃ k, (k < nb)%nat
         ∧ ((k = 0%nat ∧ v = at_ e 0) ∨ (at_ e k < v ∧ v <= at_ e (S k)))
         ∧ sub_score self X j i (log2 (at_ h k + alpha self)).
Proof.
  intros Hinit Hfit HH HE Hv e h nb.
  destruct (fit_model_wf _ _ _ _ _ _ _ _ Hinit Hfit)
    as (nb' & H' & E' & _ & _ & _ & Hwf & Hhist).
  assert (H' = H) as -> by (pose proof (wf_hist _ _ _ _ _ Hwf); congruence).
  assert (E' = E) as -> by (pose proof (wf_edges _ _ _ _ _ Hwf); congruence).
  apply fit_inv in Hfit as (_ & _ & _ & _ & _ & HX & Hn & Hm & _).
  pose proof (check_array_shape X _ _ HX Hn Hm) as Hchk.
  destruct (entry_lt X _ _ j i v HX Hv) as [Hj Hi].
  destruct (model_wf_column self nb' (ncols X) H E i Hwf Hi)
    as (Hle & Hld & Hinc).
  pose proof (wf_nb _ _ _ _ _ Hwf) as Hnb.
  assert (nb = nb') as Hnbeq by (unfold nb, h; rewrite length_column;
    by destruct (wf_shape_H _ _ _ _ _ Hwf)).
  pose proof (model_sub_score self nb' (ncols X) H E X j i v Hwf Hchk
                ltac:(lia) Hv) as Hsub.
  fold e h in Hle, Hld, Hinc, Hsub. rewrite <- Hnbeq in *.
  destruct Hhist as (_ & _ & Hcols). specialize (Hcols i Hi).
  assert (v ∈ column X i) as Hin.
  { apply list_elem_of_lookup. exists j.
    by rewrite (column_lookup X (nrows X) (ncols X)). }
  pose proof (np_histogram_range _ nb _ _ v Hnb Hcols Hin) as Hrange.
  fold e in Hrange. split; [done|].
  pose proof (wf_tol _ _ _ _ _ Hwf) as Htol.
  assert (at_ e 0 < at_ e 1) as H01 by (apply increasing_at; [done|lia..]).
  destruct (decide (v = at_ e 0)) as [->|Hne].
  - exists 0%nat. split; [lia|]. split; [by left|].
    rewrite (bin_score_below_near e _ nb (tol self) Hle Hld Hnb Hinc) in Hsub
      by nra.
    by rewrite log_density_at in Hsub by (fold h nb; lia).
  - destruct (in_range_bin e nb v Hle) as (k & Hk & Hlo & Hhi & _); [lra..|].
    exists k. split; [done|]. split; [by right|].
    rewrite (bin_score_inside e _ nb (tol self) Hle Hld Hnb Hinc v k) in Hsub
      by done.
    by rewrite log_density_at in Hsub by (fold h nb; lia).
Qed.

(** ** Scoring in batches *)

Lemma check_array_app X1 X2 :
  check_array X1 = Ok X1 → check_array X2 = Ok X2 → ncols X1 = ncols X2 →
  check_array (X1 ++ X2) = Ok (X1 ++ X2) ∧ ncols (X1 ++ X2) = ncols X1.
Proof.
  intros H1 H2 Hc.
  apply check_array_inv in H1 as (_ & [_ HF1] & Hn1 & Hm1).
  apply check_array_inv in H2 as (_ & [_ HF2] & Hn2 & Hm2).
  assert (ncols (X1 ++ X2) = ncols X1) as Hcols.
  { destruct X1; simpl in *; [unfold nrows in Hn1; simpl in Hn1; lia|done]. }
  split; [|done].
  apply (check_array_shape _ (nrows X1 + nrows X2) (ncols X1)); [|lia|lia].
  split; [by rewrite length_app|].
  apply Forall_app. split; [done|]. by rewrite Hc.
Qed.

(** X7.  The samples are scored one by one: on a fitted model, scoring
    two matrices of one width stacked on each other gives the scores of
    the first followed by the scores of the second. *)
Theorem scoring_by_batches self H X1 X2 :
  fitted self → hist_ self = Some H →
  check_array X1 = Ok X1 → check_array X2 = Ok X2 →
  ncols X1 = ncols X2 → (ncols X1 <= ncols H)%nat →
  ∃ s1 s2,
    decision_function X1 self = Ok (s1, self)
    ∧ decision_function X2 self = Ok (s2, self)
    ∧ decision_function (X1 ++ X2) self = Ok (s1 ++ s2, self).
Proof.
  intros Hfit HH Hc1 Hc2 Hcols Hm.
  destruct (fitted_wf self Hfit) as (nb & m & H' & E & Hwf).
  assert (H' = H) as -> by (pose proof (wf_hist _ _ _ _ _ Hwf); congruence).
  destruct (model_wf_ncols _ _ _ _ _ Hwf) as (HcH & _ & _).
  rewrite HcH in Hm.
  destruct (check_array_app X1 X2 Hc1 Hc2 Hcols) as [Hc12 Hcols12].
  eexists _, _. split_and!.
  - by apply (decision_function_spec self nb m H E).
  - apply (decision_function_spec self nb m H E); [done|done|lia].
  - rewrite (decision_function_spec self nb m H E (X1 ++ X2)); [|done|done|lia].
    by rewrite map_app.
Qed.

(** ** Bounds on the scores *)

Lemma log2_le x y : 0 < x → x <= y → log2 x <= log2 y.
Proof.
  intros Hx [Hlt| ->]; [|lra]. apply Rlt_le. by apply log2_increasing.
Qed.

Lemma Rsum_ge_const c l :
  Forall (λ x, c <= x) l → INR (length l) * c <= Rsum l.
Proof.
  induction 1 as [|x l Hx _ IH]; unfold Rsum in *.
  - simpl. lra.
  - rewrite length_cons, S_INR. simpl. lra.
Qed.

(** The regularizer keeps the argument of [log2] positive, and bounds
    every log-density of a fitted feature from below. *)
Lemma model_log_density_ge self nb m H E i s :
  model_wf self nb m H E → (i < m)%nat →
  s ∈ log_density (alpha self) (column H i) →
  ∃ d, d ∈ column H i ∧ 0 <= d ∧ 0 < d + alpha self
       ∧ s = log2 (d + alpha self) ∧ log2 (alpha self) <= s.
Proof.
  intros Hwf Hi Hs. unfold log_density in Hs.
  apply list_elem_of_fmap in Hs as (d & -> & Hd).
  pose proof (wf_nonneg _ _ _ _ _ Hwf i Hi) as Hpos.
  rewrite Forall_forall in Hpos. specialize (Hpos d Hd).
  pose proof (wf_alpha _ _ _ _ _ Hwf) as Ha.
  exists d. split_and!; try done; [lra|]. apply log2_le; lra.
Qed.

(** X8.  On a fitted model no bin density is negative, so with
    [alpha > 0] the argument of [np.log2] is always positive, and every
    sub-score is at least [log2(alpha)]. *)
Theorem sub_score_at_least_log2_alpha self H E X j i v s :
  fitted self → hist_ self = Some H → bin_edges_ self = Some E →
  check_array X = Ok X → (ncols X <= ncols H)%nat →
  entry X j i = Some v → sub_score self X j i s →
  (∀ d, d ∈ column H i → 0 < d + alpha self)
  ∧ log2 (alpha self) <= s.
Proof.
  intros Hfit HH HE Hchk Hm Hv Hs.
  destruct (fitted_arrays self H E Hfit HH HE) as (nb & m & Hwf).
  destruct (model_wf_ncols _ _ _ _ _ Hwf) as (HcH & _ & _).
  rewrite HcH in Hm.
  pose proof (check_array_inv X X Hchk) as (_ & HX & _ & _).
  destruct (entry_lt X _ _ j i v HX Hv) as [_ Hi].
  assert (i < m)%nat as Hi' by lia.
  destruct (model_wf_column self nb m H E i Hwf Hi') as (Hle & Hld & _).
  pose proof (model_sub_score self nb m H E X j i v Hwf Hchk Hm Hv) as Hsub.
  rewrite (sub_score_unique self X j i _ _ Hs Hsub).
  pose proof (wf_alpha _ _ _ _ _ Hwf) as Ha. split.
  - intros d Hd. pose proof (wf_nonneg _ _ _ _ _ Hwf i Hi') as Hpos.
    rewrite Forall_forall in Hpos. specialize (Hpos d Hd). lra.
  - pose proof (bin_score_elem_of (column E i) _ nb (tol self) v Hle Hld
                  (wf_nb _ _ _ _ _ Hwf)) as Hin.
    by destruct (model_log_density_ge self nb m H E i _ Hwf Hi' Hin)
      as (d & _ & _ & _ & _ & Hge).
Qed.

Lemma row_scores_lookup alpha tol H E row i x :
  row_scores alpha tol H E row !! i = Some x ↔
  ∃ v, row !! i = Some v
       ∧ x = bin_score (column E i) (log_density alpha (column H i)) tol v.
Proof.
  unfold row_scores. rewrite list_lookup_imap. split.
  - destruct (row !! i) as [v|]; simpl; [|done]. intros; simplify_eq.
    by exists v.
  - intros (v & -> & ->). done.
Qed.

Lemma model_row_score_elem self nb m H E row i x :
  model_wf self nb m H E → (length row <= m)%nat →
  row_scores (alpha self) (tol self) H E row !! i = Some x →
  (i < m)%nat ∧ x ∈ log_density (alpha self) (column H i).
Proof.
  intros Hwf Hlen Hx. apply row_scores_lookup in Hx as (v & Hv & ->).
  apply lookup_lt_Some in Hv. assert (i < m)%nat as Hi by lia.
  split; [done|].
  destruct (model_wf_column self nb m H E i Hwf Hi) as (Hle & Hld & _).
  by apply (bin_score_elem_of _ _ nb); [| |apply Hwf].
Qed.

(** X9.  On a fitted model the aggregate score of a sample with [m]
    features is at most [- m * log2(alpha)]. *)
Theorem score_upper_bound self H E X scores j s :
  fitted self → hist_ self = Some H → bin_edges_ self = Some E →
  check_array X = Ok X → (ncols X <= ncols H)%nat →
  decision_function X self = Ok (scores, self) →
  scores !! j = Some s →
  s <= - (INR (ncols X) * log2 (alpha self)).
Proof.
  intros Hfit HH HE Hchk Hm Hd Hs.
  destruct (fitted_arrays self H E Hfit HH HE) as (nb & m & Hwf).
  destruct (model_wf_ncols _ _ _ _ _ Hwf) as (HcH & _ & _).
  rewrite HcH in Hm.
  rewrite (decision_function_spec self nb m H E X Hwf Hchk Hm) in Hd.
  injection Hd as <-. rewrite list_lookup_fmap in Hs.
  destruct (X !! j) as [row|] eqn:Hrow; [|done]. simpl in Hs.
  injection Hs as <-.
  pose proof (check_array_inv X X Hchk) as (_ & HX & _ & _).
  pose proof (shape_lookup X _ _ j row HX Hrow) as Hlen.
  apply Ropp_le_contravar.
  assert (length (row_scores (alpha self) (tol self) H E row) = ncols X)
    as Hlen' by (unfold row_scores; by rewrite length_imap).
  rewrite <- Hlen'. apply Rsum_ge_const. apply Forall_lookup. intros i x Hx.
  destruct (model_row_score_elem self nb m H E row i x Hwf ltac:(lia) Hx)
    as [Hi Hin].
  by destruct (model_log_density_ge self nb m H E i x Hwf Hi Hin)
    as (d & _ & _ & _ & _ & Hge).
Qed.

(** ** The extreme scores *)

Lemma single_row_scoring self nb m H E r :
  model_wf self nb m H E → length r = m →
  decision_function [r] self
  = Ok ([- Rsum (row_scores (alpha self) (tol self) H E r)], self).
Proof.
  intros Hwf Hr. pose proof (wf_m _ _ _ _ _ Hwf) as Hm.
  rewrite (decision_function_spec self nb m H E [r] Hwf); [done| |simpl; lia].
  apply (check_array_shape _ 1 m); [|lia|lia]. split; [done|].
  by repeat constructor.
Qed.

Lemma row_scores_le alpha tol H E r r' :
  length r = length r' →
  (∀ i v v', r !! i = Some v → r' !! i = Some v' →
     bin_score (column E i) (log_density alpha (column H i)) tol v
     <= bin_score (column E i) (log_density alpha (column H i)) tol v') →
  Rsum (row_scores alpha tol H E r) <= Rsum (row_scores alpha tol H E r').
Proof.
  intros Hlen Hle. apply Rsum_le. apply Forall2_same_length_lookup. split.
  - unfold row_scores. rewrite !length_imap. done.
  - intros i x y Hx Hy.
    apply row_scores_lookup in Hx as (v & Hv & ->).
    apply row_scores_lookup in Hy as (v' & Hv' & ->). by apply (Hle i).
Qed.


(** X11.  On a fitted model no sample scores lower than a sample that
    lies strictly inside a highest-density bin of every feature. *)
Theorem highest_density_scores_lowest self H E r1 r :
  fitted self → hist_ self = Some H → bin_edges_ self = Some E →
  length r1 = ncols H → length r = ncols H →
  (∀ i v, r1 !! i = Some v → inside_highest (column E i) (column H i) v) →
  ∃ s1 s,
    decision_function [r1] self = Ok ([s1], self)
    ∧ decision_function [r] self = Ok ([s], self)
    ∧ s1 <= s.
Proof.
  intros Hfit HH HE Hr1 Hr Hin.
  destruct (fitted_arrays self H E Hfit HH HE) as (nb & m & Hwf).
  destruct (model_wf_ncols _ _ _ _ _ Hwf) as (HcH & _ & _).
  rewrite HcH in *. pose proof (wf_nb _ _ _ _ _ Hwf) as Hnb.
  eexists _, _. split; [by apply (single_row_scoring self nb m)|].
  split; [by apply (single_row_scoring self nb m)|].
  apply Ropp_le_contravar. apply row_scores_le; [lia|].
  intros i v v1 Hv Hv1.
  assert (i < m)%nat as Hi by (apply lookup_lt_Some in Hv; lia).
  destruct (model_wf_column self nb m H E i Hwf Hi) as (Hle & Hld & Hinc).
  destruct (Hin i v1 Hv1) as (k & Hk & [Hlo Hhi] & Hmax).
  rewrite (bin_score_inside _ _ nb (tol self) Hle Hld Hnb Hinc v1 k)
    by (lia || lra).
  rewrite log_density_at
    by (rewrite length_column; destruct (wf_shape_H _ _ _ _ _ Hwf) as [-> _];
        lia).
  pose proof (bin_score_elem_of (column E i) _ nb (tol self) v Hle Hld Hnb)
    as Helem.
  destruct (model_log_density_ge self nb m H E i _ Hwf Hi Helem)
    as (d & Hd & Hd0 & Hpos & -> & _).
  apply log2_le; [done|]. specialize (Hmax d Hd). lra.
Qed.

(** ** The kernel on arrays of any origin *)

(** X12.  Given edges with [n_bins + 1] rows and densities with
    [n_bins >= 1] rows, both at least as wide as the input, and
    non-decreasing columns of edges, the kernel returns a matrix of the
    shape of the input, and each entry [(j, i)] of it is one of the
    values [log2(hist[k, i] + alpha)]. *)
Theorem kernel_returns_score_matrix X E H alpha tol n m nb mE mH :
  shape X n m → (0 < n)%nat →
  shape E (S nb) mE → shape H nb mH → (m <= mE)%nat → (m <= mH)%nat →
  (1 <= nb)%nat →
  (∀ i, (i < m)%nat → nondecreasing (column E i) = true) →
  ∃ S, _calculate_outlier_scores X E H (Z.of_nat nb) alpha tol = Ok S
       ∧ shape S n m
       ∧ ∀ j i, (j < n)%nat → (i < m)%nat →
           ∃ s k, entry S j i = Some s ∧ (k < nb)%nat
                  ∧ s = log2 (at_ (column H i) k + alpha).
Proof.
  intros HX Hn HE HH HmE HmH Hnb Hsorted.
  destruct (kernel_spec X E H (Z.of_nat nb) alpha tol n m nb mE mH)
    as (S & HS & HshS & Hent); try done.
  exists S. split; [done|]. split; [done|]. intros j i Hj Hi.
  destruct (shape_entry X n m j i HX Hj Hi) as [v Hv].
  rewrite (Hent j i v Hv).
  assert (length (column E i) = Datatypes.S nb) as Hle
    by (rewrite length_column; by destruct HE).
  assert (length (column H i) = nb) as Hlh
    by (rewrite length_column; by destruct HH).
  assert (length (log_density alpha (column H i)) = nb) as Hld
    by (unfold log_density; by rewrite length_map).
  pose proof (bin_score_elem_of (column E i) _ nb tol v Hle Hld Hnb) as Hin.
  apply list_elem_of_lookup in Hin as [k Hk].
  apply lookup_lt_Some in Hk as Hlt. rewrite Hld in Hlt.
  eexists _, k. split; [done|]. split; [done|].
  rewrite <- log_density_at by lia.
  rewrite at_lookup in Hk by lia. by simplify_eq.
Qed.

(** ** The tolerance zone in units of the training range *)



End Detector.

(** * Concrete runs *)

(** The detector with one bin, [alpha = 0.1] and [tol = 0.5], fitted on
    a well-formed matrix. *)
Lemma trained_model X :
  check_array X = Ok X →
  ∃ self0 self H E,
    __init__ base0_init 1 (1 / 10) (1 / 2) (1 / 10) = Ok self0
    ∧ fit base0_set_n_classes base0_process X None self0 = Ok self
    ∧ fitted base0_init base0_set_n_classes base0_process self
    ∧ hist_ self = Some H ∧ bin_edges_ self = Some E
    ∧ alpha self = 1 / 10 ∧ tol self = 1 / 2
    ∧ model_wf self 1 (ncols X) H E
    ∧ histograms_of X 1 (ncols X) H E.
Proof.
  intros Hchk.
  pose proof (init_ok base0_init 1 (1 / 10) (1 / 2) (1 / 10) tt eq_refl
                ltac:(lra) ltac:(lra)) as Hinit.
  set (self0 := mkHBOS tt 1 (1 / 10) (1 / 2) None None None) in Hinit.
  destruct (fit_ok base0_set_n_classes base0_process X None self0 tt Hchk)
    as [self Hfit]; [simpl; lia|done| |].
  { intros scores. by exists tt. }
  destruct (fit_model_wf _ _ _ _ _ _ _ _ _ _ _ Hinit Hfit)
    as (nb & H & E & Hnb & Ha & Ht & Hwf & Hhist).
  assert (nb = 1%nat) as -> by lia.
  exists self0, self, H, E. split_and!; try done.
  - by exists 1%Z, (1 / 10), (1 / 2), (1 / 10), X, None, self0.
  - apply Hwf.
  - apply Hwf.
Qed.

Lemma outer_edges_01 : outer_edges [0; 1] = (0, 1).
Proof.
  unfold outer_edges. simpl.
  rewrite Rmin_left by lra. rewrite Rmax_right by lra.
  rewrite decide_False; [done|lra].
Qed.

(** The edges of the single bin built from the column [0; 1]. *)
Lemma unit_edges H E :
  histograms_of [[0]; [1]] 1 1 H E →
  at_ (column E 0) 0 = 0 ∧ at_ (column E 0) 1 = 1
  ∧ length (column E 0) = 2%nat ∧ length (column H 0) = 1%nat.
Proof.
  intros (HshH & HshE & Hcols). specialize (Hcols 0%nat ltac:(lia)).
  apply (np_histogram_edges _ 1) in Hcols; [|lia].
  change (column [[0]; [1]] 0) with [0; 1] in Hcols.
  rewrite outer_edges_01 in Hcols. simpl in Hcols.
  assert (length (column E 0) = 2%nat ∧ length (column H 0) = 1%nat)
    as [Hle Hlh].
  { rewrite !length_column. destruct HshH as [-> _]. by destruct HshE as [-> _]. }
  split_and!; try done; rewrite Hcols; unfold at_;
    rewrite (np_linspace_lookup 0 1 1) by lia; simpl; unfold edge; simpl; lra.
Qed.

Lemma check_array_unit v : check_array [[v]] = Ok [[v]].
Proof.
  apply (check_array_shape _ 1 1); [|lia|lia]. split; [done|].
  by repeat constructor.
Qed.

Lemma check_array_training : check_array [[0]; [1]] = Ok [[0]; [1]].
Proof.
  apply (check_array_shape _ 2 1); [|lia|lia]. split; [done|].
  by repeat constructor.
Qed.

Lemma check_array_training2 : check_array [[0; 0]; [1; 1]] = Ok [[0; 0]; [1; 1]].
Proof.
  apply (check_array_shape _ 2 2); [|lia|lia]. split; [done|].
  by repeat constructor.
Qed.

(** The model fitted on the column [0; 1]: one feature, one bin over
    [[0, 1]]. *)
Lemma unit_model :
  ∃ self0 self H E,
    __init__ base0_init 1 (1 / 10) (1 / 2) (1 / 10) = Ok self0
    ∧ fit base0_set_n_classes base0_process [[0]; [1]] None self0 = Ok self
    ∧ fitted base0_init base0_set_n_classes base0_process self
    ∧ hist_ self = Some H ∧ bin_edges_ self = Some E
    ∧ alpha self = 1 / 10 ∧ tol self = 1 / 2
    ∧ model_wf self 1 1 H E ∧ ncols H = 1%nat
    ∧ at_ (column E 0) 0 = 0 ∧ at_ (column E 0) 1 = 1
    ∧ length (column E 0) = 2%nat ∧ length (column H 0) = 1%nat.
Proof.
  destruct (trained_model _ check_array_training)
    as (self0 & self & H & E & Hinit & Hfit & Hfd & HH & HE & Ha & Ht & Hwf & Hh).
  simpl in Hwf, Hh.
  destruct (unit_edges H E Hh) as (H0 & H1 & Hle & Hlh).
  destruct (model_wf_ncols _ _ _ _ _ Hwf) as (Hc & _ & _).
  by exists self0, self, H, E.
Qed.

(** The model fitted on two columns [0; 1]: two features, one bin each. *)
Lemma pair_model :
  ∃ self0 self H E,
    __init__ base0_init 1 (1 / 10) (1 / 2) (1 / 10) = Ok self0
    ∧ fit base0_set_n_classes base0_process [[0; 0]; [1; 1]] None self0
      = Ok self
    ∧ fitted base0_init base0_set_n_classes base0_process self
    ∧ hist_ self = Some H ∧ bin_edges_ self = Some E
    ∧ model_wf self 1 2 H E ∧ ncols H = 2%nat.
Proof.
  destruct (trained_model _ check_array_training2)
    as (self0 & self & H & E & Hinit & Hfit & Hfd & HH & HE & Ha & Ht & Hwf & Hh).
  simpl in Hwf.
  destruct (model_wf_ncols _ _ _ _ _ Hwf) as (Hc & _ & _).
  by exists self0, self, H, E.
Qed.


(** ** Instances of the theorems *)


Lemma extremum_sub_score_witness :
  ∃ (self : @HBOS unit) H E,
    fitted base0_init base0_set_n_classes base0_process self
    ∧ hist_ self = Some H ∧ bin_edges_ self = Some E
    ∧ check_array [[0]] = Ok [[0]] ∧ (ncols [[0%R]] <= ncols H)%nat
    ∧ entry [[0]] 0 0 = Some 0 ∧ 0 = at_ (column E 0) 0
    ∧ sub_score self [[0]] 0 0 (log2 (at_ (column H 0) 0 + alpha self)).
Proof.
  destruct unit_model
    as (self0 & self & H & E & _ & _ & Hfd & HH & HE & Ha & Ht & Hwf & Hc
        & H0 & H1 & Hle & Hlh).
  exists self, H, E.
  assert (ncols [[0%R]] <= ncols H)%nat as Hm by (rewrite Hc; simpl; lia).
  pose proof (extremum_sub_score _ _ _ self H E [[0]] 0 0 0 Hfd HH HE
                (check_array_unit 0) Hm eq_refl) as W.
  cbv zeta in W. destruct W as (_ & Wmin & _).
  destruct (Wmin (eq_sym H0)) as [Ws _].
  split_and!; first [done | apply check_array_unit].
Defined.


Lemma sub_score_in_log_densities_witness :
  ∃ (self : @HBOS unit) H E S s k,
    fitted base0_init base0_set_n_classes base0_process self
    ∧ hist_ self = Some H ∧ bin_edges_ self = Some E
    ∧ shape [[2]] 1 1
    ∧ _calculate_outlier_scores [[2]] E H (n_bins self) (alpha self) (tol self)
      = Ok S
    ∧ entry S 0 0 = Some s
    ∧ (0 <= Z.of_nat k < n_bins self)%Z
    ∧ s = log2 (at_ (column H 0) k + alpha self).
Proof.
  destruct unit_model
    as (self0 & self & H & E & _ & _ & Hfd & HH & HE & Ha & Ht & Hwf & Hc
        & H0 & H1 & Hle & Hlh).
  assert (shape [[2]] 1 1) as HX by (split; [done|by repeat constructor]).
  destruct (sub_score_in_log_densities _ _ _ self H E [[2]] 1 1 Hfd HH HE HX)
    as [Wtotal Wmem].
  destruct (Wtotal (check_array_unit 2) ltac:(rewrite Hc; lia))
    as (S & HS & Hsome).
  destruct (Hsome 0%nat 0%nat ltac:(lia) ltac:(lia)) as [s Hs].
  destruct (Wmem S 0%nat 0%nat s HS Hs) as (k & Hk & _ & Hsk & _).
  by exists self, H, E, S, s, k.
Defined.

Lemma scoring_deterministic_witness :
  ∃ (self : @HBOS unit) s1 s2,
    decision_function [[2]] self = Ok (s1, self)
    ∧ decision_function [[2]] self = Ok (s2, self)
    ∧ s1 = s2.
Proof.
  destruct unit_model
    as (self0 & self & H & E & _ & _ & Hfd & HH & HE & Ha & Ht & Hwf & Hc & _).
  pose proof (decision_function_spec self 1 1 H E [[2]] Hwf
                (check_array_unit 2) ltac:(simpl; lia)) as Hd.
  destruct (scoring_deterministic [[2]] self _ _ _ _ Hd Hd) as (Heq & _ & _).
  eexists self, _, _. split; [exact Hd|]. split; [exact Hd|exact Heq].
Defined.

Lemma scoring_checks_no_feature_count_witness :
  ∃ (self : @HBOS unit) H E scores,
    fitted base0_init base0_set_n_classes base0_process self
    ∧ hist_ self = Some H ∧ bin_edges_ self = Some E
    ∧ ncols H = 2%nat ∧ ncols [[0]] = 1%nat
    ∧ decision_function [[0]] self = Ok (scores, self)
    ∧ length scores = 1%nat.
Proof.
  destruct pair_model
    as (self0 & self & H & E & _ & _ & Hfd & HH & HE & Hwf & Hc).
  assert (ncols [[0%R]] <= ncols H)%nat as Hm by (rewrite Hc; simpl; lia).
  destruct (scoring_checks_no_feature_count _ _ _ self H E [[0]] Hfd HH HE
              (check_array_unit 0) Hm) as (scores & Hd & Hlen & _).
  by exists self, H, E, scores.
Defined.

Lemma density_integrates_to_one_witness :
  ∃ (self0 self : @HBOS unit) H E,
    fit base0_set_n_classes base0_process [[0]; [1]] None self0 = Ok self
    ∧ hist_ self = Some H ∧ bin_edges_ self = Some E
    ∧ Rabs (Rsum (vmul (column H 0) (np_diff (column E 0))) - 1) <= 1 / 10.
Proof.
  destruct unit_model as (self0 & self & H0 & E0 & _ & Hfit & _).
  destruct (density_integrates_to_one _ _ _ _ _ _ Hfit)
    as [(H & E & HH & HE & Hmass) _].
  destruct (Hmass 0%nat ltac:(simpl; lia)) as (_ & _ & _ & Hclose).
  by exists self0, self, H, E.
Defined.

Lemma two_feature_additivity_witness :
  ∃ (self : @HBOS unit) H E s1 s2,
    fitted base0_init base0_set_n_classes base0_process self
    ∧ hist_ self = Some H ∧ bin_edges_ self = Some E ∧ ncols H = 2%nat
    ∧ decision_function [[0; 5]] self = Ok (invert_order [s1 + s2], self).
Proof.
  destruct pair_model
    as (self0 & self & H & E & _ & _ & Hfd & HH & HE & Hwf & Hc).
  destruct (two_feature_additivity _ _ _ self H E 0 5 Hfd HH HE Hc)
    as (s1 & s2 & _ & _ & Hd).
  by exists self, H, E, s1, s2.
Defined.

Lemma init_validation_witness :
  ¬ (0 < 2 < 1) ∧ ∃ e, __init__ base0_init 0 2 (1 / 2) (1 / 10) = Raise e.
Proof.
  assert (¬ (0 < 2 < 1)) as Hbad by lra.
  split; [done|].
  destruct (init_validation base0_init 0 2 (1 / 2) (1 / 10)) as [Wbad _].
  apply Wbad. by left.
Defined.

Lemma unit_inside_highest H E :
  at_ (column E 0) 0 = 0 → at_ (column E 0) 1 = 1 →
  length (column E 0) = 2%nat → length (column H 0) = 1%nat →
  inside_highest (column E 0) (column H 0) (1 / 2).
Proof.
  intros H0 H1 Hle Hlh. exists 0%nat. rewrite Hle, H0, H1.
  split; [lia|]. split; [lra|]. intros d Hd.
  destruct (column H 0) as [|y [|? ?]]; simpl in Hlh; try lia.
  apply list_elem_of_singleton in Hd as ->. unfold at_. simpl. lra.
Qed.



(** ** Where the specification and the code part *)

(** Against C5: the constructor accepts [n_bins = 0]; the object it
    returns is rejected only by [fit], by [np.histogram], after the
    arrays have been allocated. *)
Lemma init_accepts_nonpositive_n_bins :
  (0 <= 0)%Z
  ∧ __init__ base0_init 0 (1 / 10) (1 / 2) (1 / 10)
    = Ok (mkHBOS tt 0 (1 / 10) (1 / 2) None None None)
  ∧ fit base0_set_n_classes base0_process [[0]; [1]] None
        (mkHBOS tt 0 (1 / 10) (1 / 2) None None None)
    = Raise ValueError.
Proof.
  split; [lia|]. split.
  - apply init_ok; [done|lra|lra].
  - unfold fit. rewrite check_array_training. reflexivity.
Qed.

(** Against C6: a model fitted on two features scores a matrix with one
    feature. *)
Lemma scoring_accepts_fewer_features :
  ∃ (self0 self : @HBOS unit) H scores,
    __init__ base0_init 1 (1 / 10) (1 / 2) (1 / 10) = Ok self0
    ∧ fit base0_set_n_classes base0_process [[0; 0]; [1; 1]] None self0
      = Ok self
    ∧ hist_ self = Some H ∧ ncols H = 2%nat
    ∧ check_array [[0]] = Ok [[0]] ∧ ncols [[0]] = 1%nat
    ∧ decision_function [[0]] self = Ok (scores, self).
Proof.
  destruct pair_model
    as (self0 & self & H & E & Hinit & Hfit & Hfd & HH & HE & Hwf & Hc).
  pose proof (decision_function_spec self 1 2 H E [[0]] Hwf
                (check_array_unit 0) ltac:(simpl; lia)) as Hd.
  eexists self0, self, H, _.
  split_and!; first [done | apply check_array_unit].
Qed.


(** ** Instances of the further properties *)

Lemma scoring_before_fit_witness :
  __init__ base0_init 1 (1 / 10) (1 / 2) (1 / 10)
  = Ok (mkHBOS tt 1 (1 / 10) (1 / 2) None None None)
  ∧ decision_function [[0]] (mkHBOS tt 1 (1 / 10) (1 / 2) None None None)
    = Raise NotFittedError.
Proof.
  assert (__init__ base0_init 1 (1 / 10) (1 / 2) (1 / 10)
          = Ok (mkHBOS tt 1 (1 / 10) (1 / 2) None None None)) as Hinit
    by (apply init_ok; [done|lra|lra]).
  split; [exact Hinit|].
  exact (scoring_before_fit base0_init 1 (1 / 10) (1 / 2) (1 / 10) _ [[0]]
           Hinit).
Defined.


Lemma fit_scores_training_data_witness :
  ∃ (self0 self : @HBOS unit) scores,
    fit base0_set_n_classes base0_process [[0]; [1]] None self0 = Ok self
    ∧ decision_scores_ self = Some scores
    ∧ length scores = 2%nat
    ∧ decision_function [[0]; [1]] self = Ok (scores, self).
Proof.
  destruct unit_model as (self0 & self & H & E & _ & Hfit & _).
  destruct (fit_scores_training_data _ _ _ _ _ _ Hfit)
    as (scores & Hds & Hlen & Hd).
  by exists self0, self, scores.
Defined.

Lemma fit_stores_histograms_witness :
  ∃ (self0 self : @HBOS unit) H E,
    fit base0_set_n_classes base0_process [[0]; [1]] None self0 = Ok self
    ∧ hist_ self = Some H ∧ bin_edges_ self = Some E
    ∧ length H = 1%nat ∧ length E = 2%nat.
Proof.
  destruct unit_model as (self0 & self & H0 & E0 & Hinit & Hfit & _).
  destruct (fit_stores_histograms _ _ _ _ _ _ Hfit)
    as (nb & H & E & HH & HE & Hnb & _ & [HlH _] & [HlE _] & Hcfg & _).
  apply init_inv in Hinit as (Hn0 & _).
  assert (nb = 1%nat) as -> by lia.
  by exists self0, self, H, E.
Defined.

Lemma in_range_sub_score_witness :
  ∃ (self : @HBOS unit) H E,
    fitted base0_init base0_set_n_classes base0_process self
    ∧ hist_ self = Some H ∧ bin_edges_ self = Some E
    ∧ at_ (column E 0) 0 < 1 / 2 ∧ 1 / 2 <= at_ (column E 0) 1
    ∧ sub_score self [[1 / 2]] 0 0 (log2 (at_ (column H 0) 0 + alpha self)).
Proof.
  destruct unit_model
    as (self0 & self & H & E & _ & _ & Hfd & HH & HE & Ha & Ht & Hwf & Hc
        & H0 & H1 & Hle & Hlh).
  assert (ncols [[(1 / 2)%R]] <= ncols H)%nat as Hm
    by (rewrite Hc; simpl; lia).
  assert (at_ (column E 0) 0 < 1 / 2) as Hlo by (rewrite H0; lra).
  assert (1 / 2 <= at_ (column E 0) 1) as Hhi by (rewrite H1; lra).
  pose proof (in_range_sub_score _ _ _ self H E [[1 / 2]] 0 0 (1 / 2) 0 Hfd HH
                HE (check_array_unit _) Hm eq_refl ltac:(rewrite Hlh; lia)
                Hlo Hhi) as W.
  by exists self, H, E.
Defined.

Lemma training_samples_in_range_witness :
  ∃ (self0 self : @HBOS unit) H E k,
    __init__ base0_init 1 (1 / 10) (1 / 2) (1 / 10) = Ok self0
    ∧ fit base0_set_n_classes base0_process [[0]; [1]] None self0 = Ok self
    ∧ hist_ self = Some H ∧ bin_edges_ self = Some E
    ∧ entry [[0]; [1]] 1 0 = Some 1
    ∧ sub_score self [[0]; [1]] 1 0 (log2 (at_ (column H 0) k + alpha self)).
Proof.
  destruct unit_model
    as (self0 & self & H & E & Hinit & Hfit & Hfd & HH & HE & _).
  pose proof (training_samples_in_range _ _ _ _ _ _ _ _ _ _ _ _ _ 1 0 1 Hinit
                Hfit HH HE eq_refl) as W.
  cbv zeta in W. destruct W as (_ & k & _ & _ & Wsub).
  by exists self0, self, H, E, k.
Defined.

Lemma scoring_by_batches_witness :
  ∃ (self : @HBOS unit) s1 s2,
    fitted base0_init base0_set_n_classes base0_process self
    ∧ decision_function [[0]] self = Ok (s1, self)
    ∧ decision_function [[2]] self = Ok (s2, self)
    ∧ decision_function [[0]; [2]] self = Ok (s1 ++ s2, self).
Proof.
  destruct unit_model
    as (self0 & self & H & E & _ & _ & Hfd & HH & HE & Ha & Ht & Hwf & Hc & _).
  destruct (scoring_by_batches _ _ _ self H [[0]] [[2]] Hfd HH
              (check_array_unit 0) (check_array_unit 2) eq_refl
              ltac:(rewrite Hc; simpl; lia)) as (s1 & s2 & Hd1 & Hd2 & Hd12).
  by exists self, s1, s2.
Defined.

Lemma sub_score_at_least_log2_alpha_witness :
  ∃ (self : @HBOS unit) s,
    fitted base0_init base0_set_n_classes base0_process self
    ∧ sub_score self [[2]] 0 0 s ∧ log2 (alpha self) <= s.
Proof.
  destruct unit_model
    as (self0 & self & H & E & _ & _ & Hfd & HH & HE & Ha & Ht & Hwf & Hc & _).
  assert (ncols [[2%R]] <= 1)%nat as Hm by (simpl; lia).
  pose proof (model_sub_score self 1 1 H E [[2]] 0 0 2 Hwf (check_array_unit 2)
                Hm eq_refl) as Hsub.
  destruct (sub_score_at_least_log2_alpha _ _ _ self H E [[2]] 0 0 2 _ Hfd HH HE
              (check_array_unit 2) ltac:(rewrite Hc; simpl; lia) eq_refl Hsub)
    as [_ Wge].
  eexists self, _. split; [done|]. split; [exact Hsub|exact Wge].
Defined.

Lemma score_upper_bound_witness :
  ∃ (self : @HBOS unit) s,
    fitted base0_init base0_set_n_classes base0_process self
    ∧ decision_function [[2]] self = Ok ([s], self)
    ∧ s <= - (INR 1 * log2 (alpha self)).
Proof.
  destruct unit_model
    as (self0 & self & H & E & _ & _ & Hfd & HH & HE & Ha & Ht & Hwf & Hc & _).
  pose proof (decision_function_spec self 1 1 H E [[2]] Hwf
                (check_array_unit 2) ltac:(simpl; lia)) as Hd.
  simpl in Hd.
  pose proof (score_upper_bound _ _ _ self H E [[2]] _ 0 _ Hfd HH HE
                (check_array_unit 2) ltac:(rewrite Hc; simpl; lia) Hd eq_refl)
    as W.
  eexists self, _. split; [done|]. split; [exact Hd|exact W].
Defined.


Lemma highest_density_scores_lowest_witness :
  ∃ (self : @HBOS unit) s1 s,
    fitted base0_init base0_set_n_classes base0_process self
    ∧ decision_function [[1 / 2]] self = Ok ([s1], self)
    ∧ decision_function [[3]] self = Ok ([s], self)
    ∧ s1 <= s.
Proof.
  destruct unit_model
    as (self0 & self & H & E & _ & _ & Hfd & HH & HE & Ha & Ht & Hwf & Hc
        & H0 & H1 & Hle & Hlh).
  pose proof (unit_inside_highest H E H0 H1 Hle Hlh) as Hin.
  destruct (highest_density_scores_lowest _ _ _ self H E [1 / 2] [3] Hfd HH HE)
    as (s1 & s & Hd1 & Hd & Hle1).
  - by rewrite Hc.
  - by rewrite Hc.
  - intros i v Hv. destruct i as [|i]; simpl in Hv; [|done]. by simplify_eq.
  - by exists self, s1, s.
Defined.

Lemma kernel_returns_score_matrix_witness :
  ∃ S s,
    _calculate_outlier_scores [[2]] [[0]; [1]] [[1]] 1 (1 / 10) (1 / 2) = Ok S
    ∧ entry S 0 0 = Some s ∧ s = log2 (1 + 1 / 10).
Proof.
  destruct (kernel_returns_score_matrix [[2]] [[0]; [1]] [[1]] (1 / 10) (1 / 2)
              1 1 1 1 1) as (S & HS & _ & Hent).
  - split; [done|]. by repeat constructor.
  - lia.
  - split; [done|]. by repeat constructor.
  - split; [done|]. by repeat constructor.
  - lia.
  - lia.
  - lia.
  - intros i Hi. replace i with 0%nat by lia.
    change (column [[0]; [1]] 0) with [0; 1]. simpl.
    rewrite bool_decide_eq_true_2; [done|lra].
  - destruct (Hent 0%nat 0%nat ltac:(lia) ltac:(lia)) as (s & k & Hs & Hk & ->).
    assert (k = 0%nat) as -> by lia.
    exists S, (log2 (at_ (column [[1]] 0) 0 + 1 / 10)).
    split; [exact HS|]. split; [exact Hs|]. done.
Defined.

